(** * The KPA scaler: scale decisions, bounds and the autoscaler configuration

    A shallow embedding of [kpaScaler] (package autoscaling): the bounds
    clamp [applyBounds], the configuration store ([receiveAutoscalerConfig],
    [getAutoscalerConfig]) and the decision procedure [Scale]; and of the
    custom data annotation helper of package utils.

    Conventions.
    - Go's [int32] is carried by [Z]; the scaler only compares such values
      and assigns the constants -1, 0 and 1, so no arithmetic can wrap.
    - A Go pointer that may be nil is an [option].
    - A Go result pair [(v, err)] is a pair whose second component is an
      [option error]; [None] is the nil error.
    - The scale client is a collaborator: its answers are functions held in
      a record and every call made to it is appended to a call log.
    - Debug, info and error logging has no effect on the results and is left
      out; [Fatalf], which ends the process, is the outcome [Exit]. *)

From Stdlib Require Import ZArith Bool List String Lia.
Import ListNotations.
Local Open Scope Z_scope.

(** ** Outcomes and the call-logging monad *)

Definition error := string.
Definition Duration := Z.

(** How a Go call can end: it returns, it panics on a nil dereference, or
    the process is ended by a fatal log. *)
Inductive outcome (A : Type) : Type :=
| Done (a : A)
| Panic
| Exit.
Arguments Done {A} a.
Arguments Panic {A}.
Arguments Exit {A}.

(** The group/resource pair naming a scale subresource. *)
Record GroupResource := { Group : string; Resource : string }.

Record GroupVersion := { gvGroup : string; gvVersion : string }.

(** autoscaling/v1 [Scale]: the object the scale client reads and writes.
    Only [Spec.Replicas] is touched by the scaler. *)
Record ScaleResource := { ObjName : string; Replicas : Z }.

(** [scl.Spec.Replicas = n] *)
Definition setReplicas (scl : ScaleResource) (n : Z) : ScaleResource :=
  {| ObjName := ObjName scl; Replicas := n |}.

(** A call received by the scale client. *)
Inductive Call :=
| CallGet (ns : string) (resource : GroupResource) (name : string)
| CallUpdate (ns : string) (resource : GroupResource) (scl : ScaleResource).

(** The replica counts written through Update, in call order. *)
Fixpoint written (log : list Call) : list Z :=
  match log with
  | [] => []
  | CallUpdate _ _ scl :: rest => Replicas scl :: written rest
  | CallGet _ _ _ :: rest => written rest
  end.

Definition M (A : Type) : Type := list Call -> outcome A * list Call.

Definition ret {A} (a : A) : M A := fun log => (Done a, log).

Definition panic {A} : M A := fun log => (Panic, log).

Definition bind {A B} (m : M A) (k : A -> M B) : M B :=
  fun log =>
    match m log with
    | (Done a, log') => k a log'
    | (Panic, log') => (Panic, log')
    | (Exit, log') => (Exit, log')
    end.

Notation "x <- m ;; k" := (bind m (fun x => k))
  (at level 61, m at next level, right associativity).

(** Run a computation from an empty call log. *)
Definition run {A} (m : M A) : outcome A * list Call := m [].

(** ** Collaborators *)

(** scale.ScalesGetter, flattened: [Scales(ns).Get(resource, name)] and
    [Scales(ns).Update(resource, scl)] (whose returned object is dropped by
    the scaler). *)
Record ScalesGetter := {
  Get : string -> GroupResource -> string -> error + ScaleResource;
  Update : string -> GroupResource -> ScaleResource -> option error
}.

Definition scalesGet (c : ScalesGetter) (ns : string) (r : GroupResource)
    (name : string) : M (error + ScaleResource) :=
  fun log => (Done (Get c ns r name), log ++ [CallGet ns r name]).

Definition scalesUpdate (c : ScalesGetter) (ns : string) (r : GroupResource)
    (scl : ScaleResource) : M (option error) :=
  fun log => (Done (Update c ns r scl), log ++ [CallUpdate ns r scl]).

(** autoscaler.Config, the two periods the scaler reads. *)
Record Config := {
  ScaleToZeroIdlePeriod : Duration;
  ScaleToZeroGracePeriod : Duration
}.

Record OwnerReference := { ownerAPIVersion : string; ownerKind : string }.

Record ObjectReference := {
  refAPIVersion : string;
  refKind : string;
  refName : string
}.

(** kpa.Status as the scaler sees it: the answers of its four predicates.
    The two duration predicates compare a condition's last transition with
    the clock; here they are the functions of the period they are asked
    about. *)
Record PodAutoscalerStatus := {
  IsActivating : bool;
  IsReady : bool;
  CanMarkInactive : Duration -> bool;
  CanScaleToZero : Duration -> bool
}.

(** kpa.PodAutoscaler: [GetControllerOf] is the answer of
    metav1.GetControllerOf on the object, [ScaleBounds] the answer of its
    ScaleBounds method. *)
Record PodAutoscaler := {
  Namespace : string;
  GetControllerOf : option OwnerReference;
  ScaleTargetRef : ObjectReference;
  Status : PodAutoscalerStatus;
  ScaleBounds : Z * Z
}.

(** The three activation states, as the branch comments of [Scale] name them:
    Active=Unknown, Active=True, Active=False. *)
Inductive ActivationState := Activating | Active | Inactive.

Definition State (s : PodAutoscalerStatus) : ActivationState :=
  if IsActivating s then Activating
  else if IsReady s then Active
  else Inactive.

(** ** The scaler *)

Definition ScaleUnknown : Z := -1.

Record kpaScaler := {
  scaleClientSet : ScalesGetter;
  autoscalerConfig : option Config
}.

(** applyBounds (lines 109-120). pre: 0 <= min <= max && 0 <= x *)
Definition applyBounds (min max : Z) : Z -> Z :=
  fun x =>
    if x <? min then min
    else if negb (max =? 0) && (x >? max) then max
    else x.

(** What Config.DeepCopy does when its receiver is nil. The method is not
    part of this package: a generated deep copy returns nil, a copy that
    reads its receiver panics. *)
Inductive NilReceiver := NilTolerated | NilDereferenced.

(** Reading a field through a pointer. *)
Definition deref {A} (p : option A) : M A :=
  match p with
  | Some a => ret a
  | None => panic
  end.

Section Scaler.

(** v1alpha1.SchemeGroupVersion rendered by String(). *)
Variable SchemeGroupVersion : string.
(** schema.ParseGroupVersion *)
Variable ParseGroupVersion : string -> error + GroupVersion.
(** apis.KindToResource(gv.WithKind(kind)).GroupResource() *)
Variable KindToResource : GroupVersion -> string -> GroupResource.
(** corev1.ConfigMap *)
Variable ConfigMap : Type.
(** autoscaler.NewConfigFromConfigMap *)
Variable NewConfigFromConfigMap : ConfigMap -> option Config * option error.
(** The behaviour of Config.DeepCopy on a nil receiver. *)
Variable deepCopyNil : NilReceiver.

(** Modelled from the spec: Config.DeepCopy is not in this package; a
    snapshot is "a deep, independent copy of the current configuration".
    The nil receiver is the one case that sentence leaves open; the data
    model has a configuration that was never initialised fatal on first
    use, which is [NilDereferenced]. *)
Definition DeepCopy (c : option Config) : M (option Config) :=
  match c with
  | Some cfg =>
      ret (Some {| ScaleToZeroIdlePeriod := ScaleToZeroIdlePeriod cfg;
                   ScaleToZeroGracePeriod := ScaleToZeroGracePeriod cfg |})
  | None =>
      match deepCopyNil with
      | NilTolerated => ret None
      | NilDereferenced => panic
      end
  end.

(** receiveAutoscalerConfig (lines 87-101). A parse error keeps the stored
    configuration when there is one ([Errorf]) and ends the process when
    there is none ([Fatalf]); a parsed configuration replaces it.
    The mutex is held around each of the two operations below; a single
    call sees the store before or after a replacement, never in between. *)
Definition receiveAutoscalerConfig (ks : kpaScaler) (configMap : ConfigMap)
    : outcome kpaScaler :=
  let '(newAutoscalerConfig, err) := NewConfigFromConfigMap configMap in
  match err with
  | Some _ =>
      match autoscalerConfig ks with
      | Some _ => Done ks
      | None => Exit
      end
  | None =>
      Done {| scaleClientSet := scaleClientSet ks;
              autoscalerConfig := newAutoscalerConfig |}
  end.

(** getAutoscalerConfig (lines 103-107) *)
Definition getAutoscalerConfig (ks : kpaScaler) : M (option Config) :=
  DeepCopy (autoscalerConfig ks).

(** The negation of the ownership guard's condition (lines 130-131). *)
Definition ownedByRevision (owner : option OwnerReference) : bool :=
  match owner with
  | None => false
  | Some o =>
      String.eqb (ownerKind o) "Revision"%string
      && String.eqb (ownerAPIVersion o) SchemeGroupVersion
  end.

(** The gate on [desiredScale == 0] (lines 152-177). It answers [inl v]
    where the source returns [(v, nil)] at once and [inr d] where it goes on
    with [desiredScale = d]. Reading a period of a nil [config] panics. *)
Definition scaleToZeroGate (ks : kpaScaler) (kpa : PodAutoscaler)
    (desiredScale : Z) : M (Z + Z) :=
  if desiredScale =? 0 then
    config <- getAutoscalerConfig ks ;;
    if IsActivating (Status kpa) then
      ret (inr ScaleUnknown)
    else if IsReady (Status kpa) then
      c <- deref config ;;
      if CanMarkInactive (Status kpa) (ScaleToZeroIdlePeriod c)
      then ret (inl desiredScale)
      else ret (inr 1)
    else
      c <- deref config ;;
      if negb (CanScaleToZero (Status kpa) (ScaleToZeroGracePeriod c))
      then ret (inl desiredScale)
      else ret (inr desiredScale)
  else ret (inr desiredScale).

(** Scale from zero. When there are no metrics scale to 1 (lines 179-183). *)
Definition scaleFromZero (currentScale desiredScale : Z) : Z :=
  if (currentScale =? 0) && (desiredScale =? -1) then 1 else desiredScale.

(** The scale subresource of the target, and the two calls on it. *)
Definition resourceOf (kpa : PodAutoscaler) (gv : GroupVersion)
    : GroupResource :=
  KindToResource gv (refKind (ScaleTargetRef kpa)).

Definition getCall (kpa : PodAutoscaler) (gv : GroupVersion) : Call :=
  CallGet (Namespace kpa) (resourceOf kpa gv) (refName (ScaleTargetRef kpa)).

Definition updateCall (kpa : PodAutoscaler) (gv : GroupVersion)
    (scl : ScaleResource) (n : Z) : Call :=
  CallUpdate (Namespace kpa) (resourceOf kpa gv) (setReplicas scl n).

(** Scale attempts to scale the given KPA's target reference to the
    desired scale (lines 123-210). The [kpa] pointer and the object that a
    Get without error hands back are taken to be non-nil. *)
Definition Scale (ks : kpaScaler) (kpa : PodAutoscaler) (desiredScale : Z)
    : M (Z * option error) :=
  let owner := GetControllerOf kpa in
  if negb (ownedByRevision owner) then ret (desiredScale, None) else
  match ParseGroupVersion (refAPIVersion (ScaleTargetRef kpa)) with
  | inl err => ret (desiredScale, Some err)
  | inr gv =>
    let resource := resourceOf kpa gv in
    let resourceName := refName (ScaleTargetRef kpa) in
    r <- scalesGet (scaleClientSet ks) (Namespace kpa) resource resourceName ;;
    match r with
    | inl err => ret (desiredScale, Some err)
    | inr scl =>
      let currentScale := Replicas scl in
      g <- scaleToZeroGate ks kpa desiredScale ;;
      match g with
      | inl v => ret (v, None)
      | inr desiredScale =>
        let desiredScale := scaleFromZero currentScale desiredScale in
        if desiredScale <? 0 then ret (desiredScale, None) else
        let newScale :=
          applyBounds (fst (ScaleBounds kpa)) (snd (ScaleBounds kpa))
                      desiredScale in
        let desiredScale :=
          if negb (newScale =? desiredScale) then newScale
          else desiredScale in
        if desiredScale =? currentScale then ret (desiredScale, None) else
        let scl := setReplicas scl desiredScale in
        e <- scalesUpdate (scaleClientSet ks) (Namespace kpa) resource scl ;;
        match e with
        | Some err => ret (desiredScale, Some err)
        | None => ret (desiredScale, None)
        end
      end
    end
  end.

(** The target is owned by a Revision, its reference parses to [gv] and
    the Get on its scale subresource answers [scl]. *)
Definition resolves (ks : kpaScaler) (kpa : PodAutoscaler)
    (gv : GroupVersion) (scl : ScaleResource) : Prop :=
  ownedByRevision (GetControllerOf kpa) = true
  /\ ParseGroupVersion (refAPIVersion (ScaleTargetRef kpa)) = inr gv
  /\ Get (scaleClientSet ks) (Namespace kpa) (resourceOf kpa gv)
         (refName (ScaleTargetRef kpa)) = inr scl.

End Scaler.

(** The invariant of scale bounds: [0 <= min], and [min <= max] unless
    [max] is 0, which stands for no upper bound. *)
Definition wfBounds (b : Z * Z) : Prop :=
  0 <= fst b /\ (snd b = 0 \/ fst b <= snd b).

(** A value respects the bounds. *)
Definition withinBounds (b : Z * Z) (w : Z) : Prop :=
  fst b <= w /\ (snd b <> 0 -> w <= snd b).

(** ** Histories of configuration updates *)

Section Watcher.

Variable ConfigMap : Type.
Variable NewConfigFromConfigMap : ConfigMap -> option Config * option error.
(** A handler called with one map after the other, as
    [receiveAutoscalerConfig] is with every update of the configuration; a
    fatal log ends the process and the rest is never delivered. *)
Fixpoint deliver (h : kpaScaler -> ConfigMap -> outcome kpaScaler)
    (ks : kpaScaler) (maps : list ConfigMap) : outcome kpaScaler :=
  match maps with
  | [] => Done ks
  | m :: rest =>
      match h ks m with
      | Done ks' => deliver h ks' rest
      | Panic => Panic
      | Exit => Exit
      end
  end.

(** The configuration of the last map that parsed, [init] if none did. *)
Definition lastParsed (init : option Config) (maps : list ConfigMap)
    : option Config :=
  fold_left (fun acc m =>
               match NewConfigFromConfigMap m with
               | (c, None) => c
               | (_, Some _) => acc
               end) maps init.

(** The parser hands out a configuration whenever it reports no error. *)
Definition parserSound : Prop :=
  forall m c, NewConfigFromConfigMap m = (c, None) -> c <> None.

End Watcher.

(** ** Custom data annotations (package utils) *)

(** A Go [map[string]string] read and written by key; [None] is the nil
    map, which reads as empty and panics when written. *)
Definition StringMap := option (string -> option string).

Definition emptyMap : string -> option string := fun _ => None.

(** [m[k]] *)
Definition mapLookup (m : StringMap) (k : string) : option string :=
  match m with
  | None => None
  | Some f => f k
  end.

(** [m[k] = v] *)
Definition mapStore (m : StringMap) (k v : string) : outcome StringMap :=
  match m with
  | None => Panic
  | Some f => Done (Some (fun k' => if String.eqb k' k then Some v else f k'))
  end.

(** corev1.Service: its name and its annotations. *)
Record Service := { svcName : string; Annotations : StringMap }.

Definition setAnnotations (svc : Service) (m : StringMap) : Service :=
  {| svcName := svcName svc; Annotations := m |}.

Section CustomData.

(** The type of [rev.Spec.CustomData]. *)
Variable CustomData : Type.
(** json.Marshal, its bytes converted to a string. *)
Variable Marshal : CustomData -> string * option error.
(** serving.CustomDataAnnotationKey *)
Variable CustomDataAnnotationKey : string.

(** v1alpha1.Revision: its name and [Spec.CustomData]. *)
Record Revision := { revName : string; SpecCustomData : CustomData }.

(** AddCustomDataFromRevisionSpecToServiceAnnotations (lines 10-20). Both
    arguments are pointers; the service is mutated in place, so the result
    carries the service as the call leaves it beside the error returned. *)
Definition AddCustomDataFromRevisionSpecToServiceAnnotations
    (desiredService : option Service) (rev : option Revision)
    : outcome (Service * option error) :=
  match desiredService with
  | None => Panic
  | Some svc =>
      let svc :=
        match Annotations svc with
        | None => setAnnotations svc (Some emptyMap)
        | Some _ => svc
        end in
      match rev with
      | None => Panic
      | Some r =>
          let '(customDataJSON, err) := Marshal (SpecCustomData r) in
          match err with
          | Some _ => Done (svc, err)
          | None =>
              match mapStore (Annotations svc) CustomDataAnnotationKey
                             customDataJSON with
              | Done m => Done (setAnnotations svc m, err)
              | Panic => Panic
              | Exit => Exit
              end
          end
      end
  end.

End CustomData.

(** ** Sample collaborators and targets *)

Module Sample.

Definition groupVersion : string := "serving.knative.dev/v1alpha1".

(** A parser that accepts every non-empty reference. *)
Definition parse (s : string) : error + GroupVersion :=
  if String.eqb s "" then inl "empty"%string
  else inr {| gvGroup := "apps"; gvVersion := s |}.

Definition toResource (gv : GroupVersion) (kind : string) : GroupResource :=
  {| Group := gvGroup gv; Resource := kind |}.

(** A configuration source whose maps are the parse results themselves. *)
Definition fromMap (m : option Config * option error)
    : option Config * option error := m.

Definition deployment (n : Z) : ScaleResource :=
  {| ObjName := "rev-1-deployment"; Replicas := n |}.

(** A client whose target has [n] replicas and whose updates succeed. *)
Definition client (n : Z) : ScalesGetter :=
  {| Get := fun _ _ _ => inr (deployment n);
     Update := fun _ _ _ => None |}.

(** A client whose Get fails. *)
Definition clientNoGet : ScalesGetter :=
  {| Get := fun _ _ _ => inl "not found"%string;
     Update := fun _ _ _ => None |}.

(** A client whose target has [n] replicas and whose updates fail. *)
Definition clientNoUpdate (n : Z) : ScalesGetter :=
  {| Get := fun _ _ _ => inr (deployment n);
     Update := fun _ _ _ => Some "conflict"%string |}.

Definition config : Config :=
  {| ScaleToZeroIdlePeriod := 300; ScaleToZeroGracePeriod := 30 |}.

Definition config' : Config :=
  {| ScaleToZeroIdlePeriod := 600; ScaleToZeroGracePeriod := 60 |}.

Definition scaler (c : ScalesGetter) : kpaScaler :=
  {| scaleClientSet := c; autoscalerConfig := Some config |}.

(** A scaler that never received a configuration. *)
Definition scaler0 (c : ScalesGetter) : kpaScaler :=
  {| scaleClientSet := c; autoscalerConfig := None |}.

Definition revisionOwner : option OwnerReference :=
  Some {| ownerAPIVersion := groupVersion; ownerKind := "Revision" |}.

Definition targetRef : ObjectReference :=
  {| refAPIVersion := "apps/v1"; refKind := "Deployment";
     refName := "rev-1-deployment" |}.

(** A status whose condition changed [age] seconds ago. *)
Definition status (activating ready : bool) (age : Z) : PodAutoscalerStatus :=
  {| IsActivating := activating; IsReady := ready;
     CanMarkInactive := fun idle => ready && (idle <? age);
     CanScaleToZero := fun grace => negb ready && (grace <? age) |}.

Definition target (st : PodAutoscalerStatus) (bounds : Z * Z)
    : PodAutoscaler :=
  {| Namespace := "default"; GetControllerOf := revisionOwner;
     ScaleTargetRef := targetRef; Status := st; ScaleBounds := bounds |}.

Definition gv : GroupVersion := {| gvGroup := "apps"; gvVersion := "apps/v1" |}.

Definition scale (nilrx : NilReceiver) :=
  Scale groupVersion parse toResource nilrx.

Definition get : Call :=
  CallGet "default" {| Group := "apps"; Resource := "Deployment" |}
          "rev-1-deployment".

Definition update (n : Z) : Call :=
  CallUpdate "default" {| Group := "apps"; Resource := "Deployment" |}
             (deployment n).

(** Custom data is a string; it marshals to itself in quotes unless it is
    the one value the marshaller rejects. *)
Definition marshal (d : string) : string * option error :=
  if String.eqb d "unsupported"
  then (EmptyString, Some "json: unsupported value"%string)
  else (String.append "'" (String.append d "'"), None).

Definition customDataKey : string := "serving.knative.dev/customData".

Definition service (m : StringMap) : Service :=
  {| svcName := "rev-1-service"; Annotations := m |}.

Definition labelled : StringMap :=
  Some (fun k => if String.eqb k "app" then Some "shop"%string else None).

Definition revision (d : string) : Revision string :=
  {| revName := "rev-1"; SpecCustomData := d |}.

Definition addCustomData :=
  AddCustomDataFromRevisionSpecToServiceAnnotations string marshal
    customDataKey.

(** A target that no Revision controls. *)
Definition orphan : PodAutoscaler :=
  {| Namespace := "default"; GetControllerOf := None;
     ScaleTargetRef := targetRef; Status := status false true 60;
     ScaleBounds := (0, 0) |}.

(** A configuration source whose maps either hold a configuration or lack
    a key. *)
Definition parseMap (m : option Config) : option Config * option error :=
  match m with
  | Some c => (Some c, None)
  | None => (None, Some "missing key"%string)
  end.

End Sample.

(** ** The bounds clamp *)

Lemma applyBounds_cases (min max x : Z) :
  (x < min /\ applyBounds min max x = min)
  \/ (min <= x /\ max <> 0 /\ max < x /\ applyBounds min max x = max)
  \/ (min <= x /\ (max = 0 \/ x <= max) /\ applyBounds min max x = x).
Proof.
  unfold applyBounds.
  destruct (Z.ltb_spec x min) as [Hlt | Hge]; [left; split; trivial | right].
  destruct (Z.eqb_spec max 0) as [H0 | H0]; cbn [negb andb].
  - right. repeat split; auto.
  - destruct (Z.gtb_spec x max) as [Hgt | Hle]; [left | right]; repeat split;
      auto; lia.
Qed.

Lemma applyBounds_within (b : Z * Z) (x : Z) :
  wfBounds b -> 0 <= x ->
  withinBounds b (applyBounds (fst b) (snd b) x)
  /\ 0 <= applyBounds (fst b) (snd b) x.
Proof.
  unfold wfBounds, withinBounds. intros [Hmin Hmax] Hx.
  destruct (applyBounds_cases (fst b) (snd b) x)
    as [[? ->] | [(? & ? & ? & ->) | (? & ? & ->)]]; lia.
Qed.

Lemma applyBounds_one (b : Z * Z) :
  wfBounds b -> applyBounds (fst b) (snd b) 1 = Z.max 1 (fst b).
Proof.
  unfold wfBounds. intros [Hmin Hmax].
  destruct (applyBounds_cases (fst b) (snd b) 1)
    as [[? ->] | [(? & ? & ? & ->) | (? & ? & ->)]]; lia.
Qed.

(** C5. The clamp is idempotent on non-negative inputs when [0 <= min] and
    [max] is 0 or at least [min]; with bounds 1 and 10 it sends 0 to 1, 5 to
    5 and 20 to 10, and without an upper bound it leaves 1000 alone. *)
Theorem applyBounds_idempotent :
  (forall min max x : Z,
      0 <= min -> max = 0 \/ min <= max -> 0 <= x ->
      applyBounds min max (applyBounds min max x) = applyBounds min max x)
  /\ applyBounds 1 10 0 = 1
  /\ applyBounds 1 10 5 = 5
  /\ applyBounds 1 10 20 = 10
  /\ (forall min : Z, min <= 1000 -> applyBounds min 0 1000 = 1000).
Proof.
  split; [ | repeat split ].
  - intros min max x Hmin Hmax Hx.
    destruct (applyBounds_cases min max x)
      as [[? Hr] | [(? & ? & ? & Hr) | (? & ? & Hr)]]; rewrite Hr;
      destruct (applyBounds_cases min max (applyBounds min max x))
        as [[? Hs] | [(? & ? & ? & Hs) | (? & ? & Hs)]];
      rewrite Hr in *; lia.
  - intros min Hmin.
    destruct (applyBounds_cases min 0 1000)
      as [[? ->] | [(? & ? & ? & ->) | (? & ? & ->)]]; lia.
Qed.

Lemma applyBounds_idempotent_witness :
  applyBounds 1 10 (applyBounds 1 10 20) = applyBounds 1 10 20
  /\ applyBounds 1 0 1000 = 1000.
Proof.
  split.
  - apply (proj1 applyBounds_idempotent 1 10 20); lia.
  - apply (proj2 (proj2 (proj2 (proj2 applyBounds_idempotent))) 1); lia.
Defined.

(** X1. With [max] equal to 0 or at least [min], the clamp is the larger of
    [min] and the input, the input first cut down to [max] unless [max] is
    0. *)
Theorem applyBounds_closed_form (min max x : Z) :
  max = 0 \/ min <= max ->
  applyBounds min max x = Z.max min (if max =? 0 then x else Z.min max x).
Proof.
  intros Hwf.
  destruct (applyBounds_cases min max x)
    as [[? ->] | [(? & ? & ? & ->) | (? & ? & ->)]];
    destruct (Z.eqb_spec max 0); lia.
Qed.

(** X2. With [max] equal to 0 or at least [min], the clamp is monotone. *)
Theorem applyBounds_monotone (min max x y : Z) :
  max = 0 \/ min <= max -> x <= y ->
  applyBounds min max x <= applyBounds min max y.
Proof.
  intros Hwf Hxy.
  destruct (applyBounds_cases min max x)
    as [[? ->] | [(? & ? & ? & ->) | (? & ? & ->)]];
    destruct (applyBounds_cases min max y)
      as [[? ->] | [(? & ? & ? & ->) | (? & ? & ->)]]; lia.
Qed.

(** X3. Whatever the bounds, the clamp leaves a value alone exactly when
    the value is within them. *)
Theorem applyBounds_fixed_iff (min max x : Z) :
  applyBounds min max x = x <-> withinBounds (min, max) x.
Proof.
  unfold withinBounds. cbn [fst snd].
  destruct (applyBounds_cases min max x)
    as [[? ->] | [(? & ? & ? & ->) | (? & ? & ->)]]; lia.
Qed.

(** ** The configuration store and the decision procedure *)

Section ScalerProperties.

Variable SchemeGroupVersion : string.
Variable ParseGroupVersion : string -> error + GroupVersion.
Variable KindToResource : GroupVersion -> string -> GroupResource.
Variable ConfigMap : Type.
Variable NewConfigFromConfigMap : ConfigMap -> option Config * option error.
Variable deepCopyNil : NilReceiver.

Local Abbreviation scale :=
  (Scale SchemeGroupVersion ParseGroupVersion KindToResource deepCopyNil).
Local Abbreviation gate := (scaleToZeroGate deepCopyNil).
Local Abbreviation resolved :=
  (resolves SchemeGroupVersion ParseGroupVersion KindToResource).
Local Abbreviation get := (getCall KindToResource).
Local Abbreviation update := (updateCall KindToResource).
Local Abbreviation receive :=
  (receiveAutoscalerConfig ConfigMap NewConfigFromConfigMap).

(** The answer of the Update that writes [w] replicas. *)
Local Abbreviation updated ks kpa gv scl w :=
  (Update (scaleClientSet ks) (Namespace kpa) (resourceOf KindToResource kpa gv)
          (setReplicas scl w)).

Local Abbreviation lo kpa := (fst (ScaleBounds kpa)).
Local Abbreviation hi kpa := (snd (ScaleBounds kpa)).

Lemma State_Activating (s : PodAutoscalerStatus) :
  State s = Activating <-> IsActivating s = true.
Proof.
  unfold State. destruct (IsActivating s), (IsReady s); split; congruence.
Qed.

Lemma State_Active (s : PodAutoscalerStatus) :
  State s = Active <-> IsActivating s = false /\ IsReady s = true.
Proof.
  unfold State. destruct (IsActivating s), (IsReady s);
    intuition congruence.
Qed.

Lemma State_Inactive (s : PodAutoscalerStatus) :
  State s = Inactive <-> IsActivating s = false /\ IsReady s = false.
Proof.
  unfold State. destruct (IsActivating s), (IsReady s);
    intuition congruence.
Qed.

(** The gate calls no collaborator: it leaves the call log as it is. *)
Lemma scaleToZeroGate_log ks kpa d (log : list Call) :
  gate ks kpa d log = (fst (run (gate ks kpa d)), log).
Proof.
  unfold run, scaleToZeroGate, getAutoscalerConfig, DeepCopy, bind, deref,
    ret, panic.
  destruct (d =? 0); [ | reflexivity ].
  destruct (autoscalerConfig ks) as [cfg | ]; [ | destruct deepCopyNil ];
    cbn; destruct (IsActivating (Status kpa)), (IsReady (Status kpa));
    cbn; try reflexivity;
    repeat match goal with
           | |- context [if ?b then _ else _] => destruct b; cbn
           end; reflexivity.
Qed.

(** What is left of [Scale] once the target resolved, by the outcome of
    the gate. *)
Lemma Scale_resolved ks kpa d gv scl :
  resolved ks kpa gv scl ->
  run (scale ks kpa d) =
    match fst (run (gate ks kpa d)) with
    | Done (inl v) => (Done (v, None), [get kpa gv])
    | Done (inr d') =>
        let d1 := scaleFromZero (Replicas scl) d' in
        if d1 <? 0 then (Done (d1, None), [get kpa gv]) else
        let w := applyBounds (lo kpa) (hi kpa) d1 in
        if w =? Replicas scl then (Done (w, None), [get kpa gv])
        else (Done (w, updated ks kpa gv scl w),
              [get kpa gv; update kpa gv scl w])
    | Panic => (Panic, [get kpa gv])
    | Exit => (Exit, [get kpa gv])
    end.
Proof.
  intros (Hown & Hparse & Hget).
  unfold run, Scale. rewrite Hown, Hparse. cbn [negb].
  unfold bind at 1. unfold scalesGet. rewrite Hget. cbn [app].
  unfold bind at 1. rewrite scaleToZeroGate_log. unfold run. cbn [fst snd].
  destruct (fst (gate ks kpa d [])) as [[v | d'] | | ]; try reflexivity.
  cbv zeta.
  destruct (scaleFromZero (Replicas scl) d' <? 0); [ reflexivity | ].
  set (w := applyBounds _ _ _).
  assert (Hw : (if negb (w =? scaleFromZero (Replicas scl) d') then w
                else scaleFromZero (Replicas scl) d') = w).
  { destruct (Z.eqb_spec w (scaleFromZero (Replicas scl) d')); cbn;
      congruence. }
  rewrite Hw.
  destruct (w =? Replicas scl); [ reflexivity | ].
  unfold bind, scalesUpdate, ret, getCall, updateCall. cbn [app].
  destruct (Update _ _ _ _); reflexivity.
Qed.

(** The gate, case by case. *)
Lemma gate_nonzero ks kpa d :
  d <> 0 -> fst (run (gate ks kpa d)) = Done (inr d).
Proof.
  intros Hd. unfold run, scaleToZeroGate.
  destruct (Z.eqb_spec d 0); [ contradiction | reflexivity ].
Qed.

Lemma gate_activating ks kpa cfg :
  autoscalerConfig ks = Some cfg -> IsActivating (Status kpa) = true ->
  fst (run (gate ks kpa 0)) = Done (inr ScaleUnknown).
Proof.
  intros Hc Ha. unfold run, scaleToZeroGate, getAutoscalerConfig, DeepCopy.
  rewrite Hc. cbn. rewrite Ha. reflexivity.
Qed.

Lemma gate_active ks kpa cfg :
  autoscalerConfig ks = Some cfg ->
  IsActivating (Status kpa) = false -> IsReady (Status kpa) = true ->
  fst (run (gate ks kpa 0)) =
    if CanMarkInactive (Status kpa) (ScaleToZeroIdlePeriod cfg)
    then Done (inl 0) else Done (inr 1).
Proof.
  intros Hc Ha Hr. unfold run, scaleToZeroGate, getAutoscalerConfig, DeepCopy.
  rewrite Hc. cbn. rewrite Ha, Hr. cbn.
  destruct (CanMarkInactive _ _); reflexivity.
Qed.

Lemma gate_inactive ks kpa cfg :
  autoscalerConfig ks = Some cfg ->
  IsActivating (Status kpa) = false -> IsReady (Status kpa) = false ->
  fst (run (gate ks kpa 0)) =
    if CanScaleToZero (Status kpa) (ScaleToZeroGracePeriod cfg)
    then Done (inr 0) else Done (inl 0).
Proof.
  intros Hc Ha Hr. unfold run, scaleToZeroGate, getAutoscalerConfig, DeepCopy.
  rewrite Hc. cbn. rewrite Ha, Hr. cbn.
  destruct (CanScaleToZero _ _); reflexivity.
Qed.


Lemma applyBounds_one_nonzero (min max : Z) : applyBounds min max 1 <> 0.
Proof.
  destruct (applyBounds_cases min max 1)
    as [[? ->] | [(? & ? & ? & ->) | (? & ? & ->)]]; lia.
Qed.

(** Every run of [Scale] has one of three shapes: no call at all, the Get
    alone, or the Get followed by one Update that writes a clamped,
    non-negative desired scale different from the current one. *)
Lemma Scale_run_cases ks kpa d :
  snd (run (scale ks kpa d)) = []
  \/ (exists gv, snd (run (scale ks kpa d)) = [get kpa gv])
  \/ (exists gv scl d1,
        resolved ks kpa gv scl /\ 0 <= d1
        /\ applyBounds (lo kpa) (hi kpa) d1 <> Replicas scl
        /\ run (scale ks kpa d) =
             (Done (applyBounds (lo kpa) (hi kpa) d1,
                    updated ks kpa gv scl (applyBounds (lo kpa) (hi kpa) d1)),
              [get kpa gv;
               update kpa gv scl (applyBounds (lo kpa) (hi kpa) d1)])).
Proof.
  destruct (ownedByRevision SchemeGroupVersion (GetControllerOf kpa)) eqn:Hown.
  2: { left. unfold run, Scale. rewrite Hown. reflexivity. }
  destruct (ParseGroupVersion (refAPIVersion (ScaleTargetRef kpa)))
    as [err | gv] eqn:Hparse.
  { left. unfold run, Scale. rewrite Hown, Hparse. reflexivity. }
  destruct (Get (scaleClientSet ks) (Namespace kpa)
                (resourceOf KindToResource kpa gv)
                (refName (ScaleTargetRef kpa))) as [err | scl] eqn:Hget.
  { right. left. exists gv. unfold run, Scale. rewrite Hown, Hparse.
    cbn [negb]. unfold bind, scalesGet. rewrite Hget. reflexivity. }
  right.
  assert (Hres : resolved ks kpa gv scl) by (repeat split; assumption).
  rewrite (Scale_resolved ks kpa d gv scl Hres).
  destruct (fst (run (gate ks kpa d))) as [[v | d'] | | ];
    try (left; exists gv; reflexivity).
  cbv zeta.
  destruct (Z.ltb_spec (scaleFromZero (Replicas scl) d') 0) as [Hneg | Hpos];
    [ left; exists gv; reflexivity | ].
  destruct (Z.eqb_spec (applyBounds (lo kpa) (hi kpa)
                          (scaleFromZero (Replicas scl) d')) (Replicas scl))
    as [Heq | Hne]; [ left; exists gv; reflexivity | ].
  right. exists gv, scl, (scaleFromZero (Replicas scl) d').
  repeat split; assumption.
Qed.

(** C1 (amended). For an activating target and a desired scale of 0, with
    the target resolved and a configuration installed: when the current
    replica count is not 0 the answer is the sentinel -1 and the Get is
    the only call; when it is 0 the scale-from-zero rule takes over, and
    the clamp of 1 is written through one Update and returned. *)
Theorem Scale_activating ks kpa gv scl cfg :
  resolved ks kpa gv scl ->
  autoscalerConfig ks = Some cfg ->
  State (Status kpa) = Activating ->
  (Replicas scl <> 0 ->
     run (scale ks kpa 0) = (Done (ScaleUnknown, None), [get kpa gv]))
  /\ (Replicas scl = 0 ->
      let w := applyBounds (lo kpa) (hi kpa) 1 in
      run (scale ks kpa 0) =
        (Done (w, updated ks kpa gv scl w),
         [get kpa gv; update kpa gv scl w])).
Proof.
  intros Hres Hcfg Hst. apply State_Activating in Hst.
  rewrite (Scale_resolved ks kpa 0 gv scl Hres).
  rewrite (gate_activating ks kpa cfg Hcfg Hst).
  unfold scaleFromZero, ScaleUnknown. split; intros Hcur; cbv zeta.
  - destruct (Z.eqb_spec (Replicas scl) 0); [ contradiction | ].
    reflexivity.
  - rewrite Hcur. cbn [Z.eqb andb Z.ltb Z.compare Pos.eqb].
    destruct (Z.eqb_spec (applyBounds (lo kpa) (hi kpa) 1) 0) as [H0 | H0];
      [ exfalso; exact (applyBounds_one_nonzero _ _ H0) | reflexivity ].
Qed.

(** C2 (amended). For a desired scale of 0 on a target that is active with
    the idle period elapsed, or inactive with the grace period not yet
    elapsed, [Scale] returns the desired scale it was given, 0, whatever
    the current replica count, and the Get is the only call. *)
Theorem Scale_zero_deferred ks kpa gv scl cfg :
  resolved ks kpa gv scl ->
  autoscalerConfig ks = Some cfg ->
  (State (Status kpa) = Active
   /\ CanMarkInactive (Status kpa) (ScaleToZeroIdlePeriod cfg) = true)
  \/ (State (Status kpa) = Inactive
      /\ CanScaleToZero (Status kpa) (ScaleToZeroGracePeriod cfg) = false) ->
  run (scale ks kpa 0) = (Done (0, None), [get kpa gv]).
Proof.
  intros Hres Hcfg Hst.
  rewrite (Scale_resolved ks kpa 0 gv scl Hres).
  destruct Hst as [[Hst Hidle] | [Hst Hgrace]].
  - apply State_Active in Hst. destruct Hst as [Ha Hr].
    rewrite (gate_active ks kpa cfg Hcfg Ha Hr), Hidle. reflexivity.
  - apply State_Inactive in Hst. destruct Hst as [Ha Hr].
    rewrite (gate_inactive ks kpa cfg Hcfg Ha Hr), Hgrace. reflexivity.
Qed.

(** C3 (amended). For an active target, a desired scale of 0 and the idle
    period not yet elapsed, [Scale] returns the clamp of 1 under the
    target's bounds, which is the larger of 1 and the lower bound when the
    bounds are well formed; an Update is issued exactly when the current
    replica count differs from that value. *)
Theorem Scale_active_idle_pending ks kpa gv scl cfg :
  resolved ks kpa gv scl ->
  autoscalerConfig ks = Some cfg ->
  State (Status kpa) = Active ->
  CanMarkInactive (Status kpa) (ScaleToZeroIdlePeriod cfg) = false ->
  let w := applyBounds (lo kpa) (hi kpa) 1 in
  (Replicas scl = w ->
     run (scale ks kpa 0) = (Done (w, None), [get kpa gv]))
  /\ (Replicas scl <> w ->
      run (scale ks kpa 0) =
        (Done (w, updated ks kpa gv scl w),
         [get kpa gv; update kpa gv scl w]))
  /\ (wfBounds (ScaleBounds kpa) -> w = Z.max 1 (lo kpa)).
Proof.
  intros Hres Hcfg Hst Hidle w. apply State_Active in Hst.
  destruct Hst as [Ha Hr].
  rewrite (Scale_resolved ks kpa 0 gv scl Hres).
  rewrite (gate_active ks kpa cfg Hcfg Ha Hr), Hidle.
  assert (H1 : scaleFromZero (Replicas scl) 1 = 1).
  { unfold scaleFromZero. rewrite Bool.andb_false_r. reflexivity. }
  cbv zeta. rewrite H1. cbn [Z.ltb Z.compare]. fold w.
  repeat split.
  - intros Hcur. rewrite <- Hcur, Z.eqb_refl. reflexivity.
  - intros Hcur. destruct (Z.eqb_spec w (Replicas scl)); [ | reflexivity ].
    congruence.
  - intros Hwf. apply applyBounds_one. exact Hwf.
Qed.

(** C4 (amended). When the fetched replica count is 0 and the desired
    scale is the sentinel -1 after the gate, [Scale] writes the clamp of 1
    through one Update and returns it; with well-formed bounds that is the
    larger of 1 and the lower bound. *)
Theorem Scale_from_zero ks kpa d gv scl :
  resolved ks kpa gv scl ->
  Replicas scl = 0 ->
  fst (run (gate ks kpa d)) = Done (inr ScaleUnknown) ->
  let w := applyBounds (lo kpa) (hi kpa) 1 in
  run (scale ks kpa d) =
    (Done (w, updated ks kpa gv scl w), [get kpa gv; update kpa gv scl w])
  /\ (wfBounds (ScaleBounds kpa) -> w = Z.max 1 (lo kpa)).
Proof.
  intros Hres Hcur Hgate w. split; [ | apply applyBounds_one ].
  rewrite (Scale_resolved ks kpa d gv scl Hres), Hgate.
  unfold scaleFromZero, ScaleUnknown. rewrite Hcur.
  cbn [Z.eqb andb Z.ltb Z.compare Pos.eqb]. cbv zeta. fold w.
  destruct (Z.eqb_spec w 0) as [H0 | H0];
    [ exfalso; exact (applyBounds_one_nonzero _ _ H0) | reflexivity ].
Qed.

(** C6. When the Get fails, [Scale] returns the desired scale it was
    given together with that error, and the Get is the only call. When an
    Update was issued and failed, [Scale] returns that error together with
    the replica count it tried to write. *)
Theorem Scale_propagates_errors ks kpa d :
  (forall gv err,
      ownedByRevision SchemeGroupVersion (GetControllerOf kpa) = true ->
      ParseGroupVersion (refAPIVersion (ScaleTargetRef kpa)) = inr gv ->
      Get (scaleClientSet ks) (Namespace kpa)
          (resourceOf KindToResource kpa gv)
          (refName (ScaleTargetRef kpa)) = inl err ->
      run (scale ks kpa d) = (Done (d, Some err), [get kpa gv]))
  /\ (forall ns r scl' err,
      In (CallUpdate ns r scl') (snd (run (scale ks kpa d))) ->
      Update (scaleClientSet ks) ns r scl' = Some err ->
      fst (run (scale ks kpa d)) = Done (Replicas scl', Some err)).
Proof.
  split.
  - intros gv err Hown Hparse Hget. unfold run, Scale.
    rewrite Hown, Hparse. cbn [negb]. unfold bind, scalesGet.
    rewrite Hget. reflexivity.
  - intros ns r scl' err Hin Hupd.
    destruct (Scale_run_cases ks kpa d)
      as [Hlog | [[gv Hlog] | (gv & scl & d1 & _ & _ & _ & Hrun)]].
    + rewrite Hlog in Hin. destruct Hin.
    + rewrite Hlog in Hin. destruct Hin as [Hc | []]. discriminate Hc.
    + rewrite Hrun in Hin |- *. cbn [fst snd] in *.
      destruct Hin as [Hc | [Hc | []]]; [ discriminate Hc | ].
      unfold updateCall in Hc. injection Hc as Hns Hr Hscl.
      subst ns r scl'. rewrite Hupd. reflexivity.
Qed.

(** C7. A configuration update that fails to parse while a configuration
    is installed leaves the scaler as it was; one that parses replaces the
    stored configuration with the new value and touches nothing else. *)
Theorem receiveAutoscalerConfig_replace ks configMap :
  (forall old new err,
      NewConfigFromConfigMap configMap = (new, Some err) ->
      autoscalerConfig ks = Some old ->
      receiveAutoscalerConfig ConfigMap NewConfigFromConfigMap ks configMap
        = Done ks)
  /\ (forall new,
      NewConfigFromConfigMap configMap = (new, None) ->
      exists ks',
        receiveAutoscalerConfig ConfigMap NewConfigFromConfigMap ks configMap
          = Done ks'
        /\ autoscalerConfig ks' = new
        /\ scaleClientSet ks' = scaleClientSet ks).
Proof.
  unfold receiveAutoscalerConfig. split.
  - intros old new err Hparse Hold. rewrite Hparse, Hold. reflexivity.
  - intros new Hparse. rewrite Hparse. eexists. repeat split.
Qed.

(** A first update that fails to parse, with nothing installed, ends the
    process. *)
Lemma receiveAutoscalerConfig_fatal ks configMap new err :
  NewConfigFromConfigMap configMap = (new, Some err) ->
  autoscalerConfig ks = None ->
  receive ks configMap = Exit.
Proof.
  intros Hparse Hnone. unfold receiveAutoscalerConfig.
  rewrite Hparse, Hnone. reflexivity.
Qed.


(** C9. When the run passes the gate with a desired scale that, after the
    scale-from-zero rule, is non-negative and is clamped to the current
    replica count, [Scale] returns that count and the Get is the only
    call. *)
Theorem Scale_noop ks kpa d gv scl d' :
  resolved ks kpa gv scl ->
  fst (run (gate ks kpa d)) = Done (inr d') ->
  0 <= scaleFromZero (Replicas scl) d' ->
  applyBounds (lo kpa) (hi kpa) (scaleFromZero (Replicas scl) d')
    = Replicas scl ->
  run (scale ks kpa d) = (Done (Replicas scl, None), [get kpa gv]).
Proof.
  intros Hres Hgate Hpos Hclamp.
  rewrite (Scale_resolved ks kpa d gv scl Hres), Hgate. cbv zeta.
  destruct (Z.ltb_spec (scaleFromZero (Replicas scl) d') 0); [ lia | ].
  rewrite Hclamp, Z.eqb_refl. reflexivity.
Qed.

(** C10. With well-formed bounds, every replica count that a run of
    [Scale] writes through Update is at least the lower bound, at most the
    upper bound unless that is 0, and non-negative. *)
Theorem Scale_writes_within_bounds ks kpa d :
  wfBounds (ScaleBounds kpa) ->
  Forall (fun w => withinBounds (ScaleBounds kpa) w /\ 0 <= w)
         (written (snd (run (scale ks kpa d)))).
Proof.
  intros Hwf.
  destruct (Scale_run_cases ks kpa d)
    as [Hlog | [[gv Hlog] | (gv & scl & d1 & _ & Hpos & _ & Hrun)]].
  - rewrite Hlog. constructor.
  - rewrite Hlog. constructor.
  - rewrite Hrun. cbn. constructor; [ | constructor ].
    apply applyBounds_within; assumption.
Qed.

(** Returning the current replica count and issuing an Update exclude
    each other. *)
Lemma Scale_returns_current ks kpa d gv scl e :
  resolved ks kpa gv scl ->
  fst (run (scale ks kpa d)) = Done (Replicas scl, e) ->
  snd (run (scale ks kpa d)) = [get kpa gv].
Proof.
  intros Hres. rewrite (Scale_resolved ks kpa d gv scl Hres).
  destruct (fst (run (gate ks kpa d))) as [[v | d'] | | ];
    try reflexivity.
  cbv zeta.
  destruct (scaleFromZero (Replicas scl) d' <? 0); [ reflexivity | ].
  destruct (Z.eqb_spec (applyBounds (lo kpa) (hi kpa)
                          (scaleFromZero (Replicas scl) d')) (Replicas scl))
    as [Heq | Hne]; [ reflexivity | ].
  cbn [fst snd]. intros Hret. injection Hret as Hv _. contradiction.
Qed.

(** An activating target never has the gate read the configuration: where
    the snapshot copy tolerates a nil configuration the run goes on as if
    one were installed. *)
Lemma gate_unconfigured_activating ks kpa :
  deepCopyNil = NilTolerated ->
  autoscalerConfig ks = None -> IsActivating (Status kpa) = true ->
  fst (run (gate ks kpa 0)) = Done (inr ScaleUnknown).
Proof.
  intros Hnil Hc Ha.
  unfold run, scaleToZeroGate, getAutoscalerConfig, DeepCopy.
  rewrite Hc, Hnil. cbn. rewrite Ha. reflexivity.
Qed.


(** *** Further properties of the gate and of [Scale] *)

(** The gate read backwards: what each of its answers tells about its
    input. *)
Lemma gate_proceeds_inv ks kpa d d' :
  fst (run (gate ks kpa d)) = Done (inr d') ->
  (d <> 0 /\ d' = d)
  \/ (d = 0 /\ IsActivating (Status kpa) = true /\ d' = ScaleUnknown)
  \/ (d = 0 /\ IsActivating (Status kpa) = false
      /\ exists cfg, autoscalerConfig ks = Some cfg
         /\ ((IsReady (Status kpa) = true /\ d' = 1
              /\ CanMarkInactive (Status kpa) (ScaleToZeroIdlePeriod cfg)
                 = false)
             \/ (IsReady (Status kpa) = false /\ d' = 0
                 /\ CanScaleToZero (Status kpa) (ScaleToZeroGracePeriod cfg)
                    = true))).
Proof.
  unfold run, scaleToZeroGate, getAutoscalerConfig, DeepCopy.
  destruct (Z.eqb_spec d 0) as [Hd | Hd].
  2: { cbn. intros H. injection H as H. left. split; congruence. }
  intros H. right. revert H.
  destruct (autoscalerConfig ks) as [cfg | ]; [ | destruct deepCopyNil ];
    cbn; destruct (IsActivating (Status kpa)); cbn;
    try (intros H; injection H as H; left; repeat split; congruence);
    try discriminate.
  - destruct (IsReady (Status kpa)); cbn.
    + destruct (CanMarkInactive _ _) eqn:E; cbn; intros H;
        [ discriminate | injection H as H ].
      right. repeat split; trivial. exists cfg. split; trivial.
      left. repeat split; congruence.
    + destruct (CanScaleToZero _ _) eqn:E; cbn; intros H;
        [ injection H as H | discriminate ].
      right. repeat split; trivial. exists cfg. split; trivial.
      right. repeat split; congruence.
  - destruct (IsReady (Status kpa)); cbn; discriminate.
Qed.

Lemma gate_returns_inv ks kpa d v :
  fst (run (gate ks kpa d)) = Done (inl v) -> d = 0 /\ v = 0.
Proof.
  unfold run, scaleToZeroGate, getAutoscalerConfig, DeepCopy.
  destruct (Z.eqb_spec d 0) as [Hd | Hd]; [ | discriminate ].
  destruct (autoscalerConfig ks) as [cfg | ]; [ | destruct deepCopyNil ];
    cbn; destruct (IsActivating (Status kpa)), (IsReady (Status kpa)); cbn;
    try discriminate;
    repeat match goal with
           | |- context [if ?b then _ else _] => destruct b; cbn
           end;
    try discriminate; intros H; injection H as H; split; congruence.
Qed.

(** The gate depends on the scaler through its stored configuration only. *)
Lemma gate_config_only ks1 ks2 kpa d :
  autoscalerConfig ks1 = autoscalerConfig ks2 ->
  gate ks1 kpa d = gate ks2 kpa d.
Proof.
  intros Hc. unfold scaleToZeroGate, getAutoscalerConfig. rewrite Hc.
  reflexivity.
Qed.

Lemma resolved_unique ks kpa gv1 scl1 gv2 scl2 :
  resolved ks kpa gv1 scl1 -> resolved ks kpa gv2 scl2 ->
  gv1 = gv2 /\ scl1 = scl2.
Proof.
  intros (_ & Hp1 & Hg1) (_ & Hp2 & Hg2).
  assert (gv1 = gv2) by congruence. subst gv2. split; congruence.
Qed.

(** Every run is unresolved, or resolved with the shape [Scale_resolved]
    gives. *)
Lemma Scale_cases ks kpa d :
  (ownedByRevision SchemeGroupVersion (GetControllerOf kpa) = false
   /\ run (scale ks kpa d) = (Done (d, None), []))
  \/ (exists err,
        ownedByRevision SchemeGroupVersion (GetControllerOf kpa) = true
        /\ ParseGroupVersion (refAPIVersion (ScaleTargetRef kpa)) = inl err
        /\ run (scale ks kpa d) = (Done (d, Some err), []))
  \/ (exists gv err,
        ownedByRevision SchemeGroupVersion (GetControllerOf kpa) = true
        /\ ParseGroupVersion (refAPIVersion (ScaleTargetRef kpa)) = inr gv
        /\ Get (scaleClientSet ks) (Namespace kpa)
               (resourceOf KindToResource kpa gv)
               (refName (ScaleTargetRef kpa)) = inl err
        /\ run (scale ks kpa d) = (Done (d, Some err), [get kpa gv]))
  \/ (exists gv scl, resolved ks kpa gv scl).
Proof.
  destruct (ownedByRevision SchemeGroupVersion (GetControllerOf kpa)) eqn:Hown.
  2: { left. split; trivial. unfold run, Scale. rewrite Hown. reflexivity. }
  right.
  destruct (ParseGroupVersion (refAPIVersion (ScaleTargetRef kpa)))
    as [err | gv] eqn:Hparse.
  { left. exists err. repeat split. unfold run, Scale.
    rewrite Hown, Hparse. reflexivity. }
  right.
  destruct (Get (scaleClientSet ks) (Namespace kpa)
                (resourceOf KindToResource kpa gv)
                (refName (ScaleTargetRef kpa))) as [err | scl] eqn:Hget.
  { left. exists gv, err. repeat split; trivial. unfold run, Scale.
    rewrite Hown, Hparse. cbn [negb]. unfold bind, scalesGet.
    rewrite Hget. reflexivity. }
  right. exists gv, scl. repeat split; assumption.
Qed.

(** A written value, traced back to the answer of the gate. *)
Lemma Scale_written_inv ks kpa d w :
  In w (written (snd (run (scale ks kpa d)))) ->
  exists gv scl d',
    resolved ks kpa gv scl
    /\ fst (run (gate ks kpa d)) = Done (inr d')
    /\ 0 <= scaleFromZero (Replicas scl) d'
    /\ w = applyBounds (lo kpa) (hi kpa) (scaleFromZero (Replicas scl) d')
    /\ w <> Replicas scl
    /\ run (scale ks kpa d) =
         (Done (w, updated ks kpa gv scl w),
          [get kpa gv; update kpa gv scl w]).
Proof.
  destruct (Scale_cases ks kpa d)
    as [[_ Hrun] | [(err & _ & _ & Hrun) | [(gv & err & _ & _ & _ & Hrun)
       | (gv & scl & Hres)]]];
    try (rewrite Hrun; cbn; contradiction).
  rewrite (Scale_resolved ks kpa d gv scl Hres).
  destruct (fst (run (gate ks kpa d))) as [[v | d'] | | ] eqn:Hgate;
    try (cbn; contradiction).
  cbv zeta.
  destruct (Z.ltb_spec (scaleFromZero (Replicas scl) d') 0) as [Hneg | Hpos];
    [ cbn; contradiction | ].
  destruct (Z.eqb_spec (applyBounds (lo kpa) (hi kpa)
                          (scaleFromZero (Replicas scl) d')) (Replicas scl))
    as [Heq | Hne]; [ cbn; contradiction | ].
  cbn [snd written updateCall getCall setReplicas Replicas In].
  intros [Hw | []]. subst w.
  exists gv, scl, d'. split; [ exact Hres | repeat split; trivial ].
Qed.

(** X4. [Scale] makes no call at all exactly when the target has no
    controlling Revision or its scale reference does not parse; it then
    hands back the desired scale, with the parse error in the second case. *)
Theorem Scale_no_call_iff ks kpa d :
  (GetControllerOf kpa = None
   \/ (exists o, GetControllerOf kpa = Some o
         /\ (ownerKind o <> "Revision"%string
             \/ ownerAPIVersion o <> SchemeGroupVersion)) ->
   run (scale ks kpa d) = (Done (d, None), []))
  /\ (forall err,
        ownedByRevision SchemeGroupVersion (GetControllerOf kpa) = true ->
        ParseGroupVersion (refAPIVersion (ScaleTargetRef kpa)) = inl err ->
        run (scale ks kpa d) = (Done (d, Some err), []))
  /\ (snd (run (scale ks kpa d)) = [] ->
        ownedByRevision SchemeGroupVersion (GetControllerOf kpa) = false
        \/ exists err,
             ParseGroupVersion (refAPIVersion (ScaleTargetRef kpa)) = inl err).
Proof.
  repeat split.
  - intros Hown.
    assert (Hf : ownedByRevision SchemeGroupVersion (GetControllerOf kpa)
                 = false).
    { unfold ownedByRevision.
      destruct Hown as [-> | (o & -> & Ho)]; [ reflexivity | ].
      destruct (String.eqb_spec (ownerKind o) "Revision"),
               (String.eqb_spec (ownerAPIVersion o) SchemeGroupVersion);
        cbn; trivial. destruct Ho; contradiction. }
    unfold run, Scale. rewrite Hf. reflexivity.
  - intros err Hown Hparse. unfold run, Scale. rewrite Hown, Hparse.
    reflexivity.
  - intros Hlog.
    destruct (Scale_cases ks kpa d)
      as [[Hown _] | [(err & _ & Hparse & _) | [(gv & err & _ & _ & _ & Hrun)
         | (gv & scl & Hres)]]].
    + left. exact Hown.
    + right. exists err. exact Hparse.
    + rewrite Hrun in Hlog. discriminate Hlog.
    + rewrite (Scale_resolved ks kpa d gv scl Hres) in Hlog.
      destruct (fst (run (gate ks kpa d))) as [[v | d'] | | ];
        try discriminate Hlog.
      cbv zeta in Hlog.
      destruct (scaleFromZero (Replicas scl) d' <? 0);
        [ discriminate Hlog | ].
      destruct (applyBounds (lo kpa) (hi kpa)
                            (scaleFromZero (Replicas scl) d') =? Replicas scl);
        discriminate Hlog.
Qed.

(** X5. A run issues at most one Update. An Update comes right after the
    Get that resolved the target, goes to the same namespace and resource,
    and carries the fetched object with nothing but its replica count
    changed, to a value other than the one fetched. *)
Theorem Scale_call_protocol ks kpa d :
  (List.length (written (snd (run (scale ks kpa d)))) <= 1)%nat
  /\ forall ns r s,
       In (CallUpdate ns r s) (snd (run (scale ks kpa d))) ->
       exists gv scl,
         resolved ks kpa gv scl
         /\ snd (run (scale ks kpa d)) = [get kpa gv; CallUpdate ns r s]
         /\ ns = Namespace kpa
         /\ r = resourceOf KindToResource kpa gv
         /\ s = setReplicas scl (Replicas s)
         /\ Replicas s <> Replicas scl.
Proof.
  destruct (Scale_run_cases ks kpa d)
    as [Hlog | [[gv Hlog] | (gv & scl & d1 & Hres & Hpos & Hne & Hrun)]].
  - rewrite Hlog. split; [ cbn; lia | intros ns r s [] ].
  - rewrite Hlog. split; [ cbn; lia | ].
    intros ns r s [Hc | []]. discriminate Hc.
  - rewrite Hrun. cbn [snd]. split; [ cbn; lia | ].
    intros ns r s [Hc | [Hc | []]]; [ discriminate Hc | ].
    unfold updateCall in Hc. injection Hc as <- <- <-.
    exists gv, scl. split; [ exact Hres | ].
    cbn [setReplicas Replicas ObjName]. repeat split; trivial.
Qed.

(** X6. [Scale] writes 0 replicas only for a desired scale of 0 on an
    inactive target whose grace period, taken from an installed
    configuration, has elapsed, whose lower bound allows 0 and which still
    has replicas. *)
Theorem Scale_writes_zero_only_inactive ks kpa d :
  In 0 (written (snd (run (scale ks kpa d)))) ->
  d = 0
  /\ State (Status kpa) = Inactive
  /\ (exists cfg,
        autoscalerConfig ks = Some cfg
        /\ CanScaleToZero (Status kpa) (ScaleToZeroGracePeriod cfg) = true)
  /\ lo kpa <= 0
  /\ exists gv scl, resolved ks kpa gv scl /\ Replicas scl <> 0.
Proof.
  intros Hin.
  destruct (Scale_written_inv ks kpa d 0 Hin)
    as (gv & scl & d' & Hres & Hgate & Hpos & Hw & Hne & _).
  assert (Hd1 : scaleFromZero (Replicas scl) d' = 0 /\ lo kpa <= 0).
  { destruct (applyBounds_cases (lo kpa) (hi kpa)
                (scaleFromZero (Replicas scl) d'))
      as [[? Hr] | [(? & ? & ? & Hr) | (? & ? & Hr)]]; lia. }
  destruct Hd1 as [Hd1 Hlo].
  assert (Hd' : d' = 0).
  { unfold scaleFromZero in Hd1.
    destruct ((Replicas scl =? 0) && (d' =? -1));
      [ discriminate | exact Hd1 ]. }
  subst d'.
  destruct (gate_proceeds_inv ks kpa d 0 Hgate)
    as [[Hd Heq] | [(_ & _ & Heq) | (Hd & Ha & cfg & Hcfg & Hbr)]];
    [ congruence | discriminate Heq | ].
  destruct Hbr as [(_ & Heq & _) | (Hr & _ & Hgrace)]; [ discriminate Heq | ].
  repeat split; trivial.
  - apply State_Inactive. split; assumption.
  - exists cfg. split; assumption.
  - exists gv, scl. split; [ exact Hres | congruence ].
Qed.

(** X7. For a desired scale of 0 on an inactive target whose grace period
    has elapsed, [Scale] returns the clamp of 0, which is the lower bound
    when the bounds are well formed, and writes it exactly when the current
    replica count differs from it. *)
Theorem Scale_inactive_grace_elapsed ks kpa gv scl cfg :
  resolved ks kpa gv scl ->
  autoscalerConfig ks = Some cfg ->
  State (Status kpa) = Inactive ->
  CanScaleToZero (Status kpa) (ScaleToZeroGracePeriod cfg) = true ->
  (Replicas scl = applyBounds (lo kpa) (hi kpa) 0 ->
     run (scale ks kpa 0)
     = (Done (applyBounds (lo kpa) (hi kpa) 0, None), [get kpa gv]))
  /\ (Replicas scl <> applyBounds (lo kpa) (hi kpa) 0 ->
      run (scale ks kpa 0)
      = (Done (applyBounds (lo kpa) (hi kpa) 0,
               updated ks kpa gv scl (applyBounds (lo kpa) (hi kpa) 0)),
         [get kpa gv; update kpa gv scl (applyBounds (lo kpa) (hi kpa) 0)]))
  /\ (wfBounds (ScaleBounds kpa) ->
      applyBounds (lo kpa) (hi kpa) 0 = lo kpa).
Proof.
  intros Hres Hcfg Hst Hgrace. apply State_Inactive in Hst.
  destruct Hst as [Ha Hr].
  rewrite (Scale_resolved ks kpa 0 gv scl Hres).
  rewrite (gate_inactive ks kpa cfg Hcfg Ha Hr), Hgrace.
  assert (H0 : scaleFromZero (Replicas scl) 0 = 0).
  { unfold scaleFromZero. rewrite Bool.andb_false_r. reflexivity. }
  cbv zeta. rewrite H0. cbn [Z.ltb Z.compare].
  repeat split.
  - intros Hcur. rewrite <- Hcur, Z.eqb_refl. reflexivity.
  - intros Hcur.
    destruct (Z.eqb_spec (applyBounds (lo kpa) (hi kpa) 0) (Replicas scl));
      [ congruence | reflexivity ].
  - unfold wfBounds. intros [Hmin Hmax].
    destruct (applyBounds_cases (lo kpa) (hi kpa) 0)
      as [[? ->] | [(? & ? & ? & ->) | (? & ? & ->)]]; lia.
Qed.

(** X8. A negative desired scale is handed back as it is, with the Get as
    the only call, unless it is -1 and the target has no replica. *)
Theorem Scale_unknown_passthrough ks kpa d gv scl :
  resolved ks kpa gv scl ->
  d < 0 ->
  Replicas scl <> 0 \/ d <> ScaleUnknown ->
  run (scale ks kpa d) = (Done (d, None), [get kpa gv]).
Proof.
  intros Hres Hneg Hnz.
  rewrite (Scale_resolved ks kpa d gv scl Hres).
  rewrite (gate_nonzero ks kpa d) by lia.
  assert (Hd : scaleFromZero (Replicas scl) d = d).
  { unfold scaleFromZero, ScaleUnknown in *.
    destruct (Z.eqb_spec (Replicas scl) 0), (Z.eqb_spec d (-1)); cbn;
      trivial. lia. }
  cbv zeta. rewrite Hd.
  destruct (Z.ltb_spec d 0); [ reflexivity | lia ].
Qed.

(** X9. A positive desired scale is clamped and applied without the
    activation state or the configuration being read: the result is the
    clamp, written exactly when the current replica count differs from it,
    also on a scaler that never received a configuration. *)
Theorem Scale_positive ks kpa d gv scl :
  resolved ks kpa gv scl ->
  0 < d ->
  (Replicas scl = applyBounds (lo kpa) (hi kpa) d ->
     run (scale ks kpa d)
     = (Done (applyBounds (lo kpa) (hi kpa) d, None), [get kpa gv]))
  /\ (Replicas scl <> applyBounds (lo kpa) (hi kpa) d ->
      run (scale ks kpa d)
      = (Done (applyBounds (lo kpa) (hi kpa) d,
               updated ks kpa gv scl (applyBounds (lo kpa) (hi kpa) d)),
         [get kpa gv; update kpa gv scl (applyBounds (lo kpa) (hi kpa) d)])).
Proof.
  intros Hres Hpos.
  rewrite (Scale_resolved ks kpa d gv scl Hres).
  rewrite (gate_nonzero ks kpa d) by lia.
  assert (Hd : scaleFromZero (Replicas scl) d = d).
  { unfold scaleFromZero.
    destruct (Z.eqb_spec d (-1)); [ lia | ].
    rewrite Bool.andb_false_r. reflexivity. }
  cbv zeta. rewrite Hd.
  destruct (Z.ltb_spec d 0); [ lia | ].
  split; intros Hcur.
  - rewrite <- Hcur, Z.eqb_refl. reflexivity.
  - destruct (Z.eqb_spec (applyBounds (lo kpa) (hi kpa) d) (Replicas scl));
      [ congruence | reflexivity ].
Qed.

(** X10. With well-formed bounds, every positive scale that [Scale] returns
    for a resolved target is within the bounds. *)
Theorem Scale_positive_result_within_bounds ks kpa d gv scl v e :
  resolved ks kpa gv scl ->
  wfBounds (ScaleBounds kpa) ->
  fst (run (scale ks kpa d)) = Done (v, e) ->
  0 < v ->
  withinBounds (ScaleBounds kpa) v.
Proof.
  intros Hres Hwf. rewrite (Scale_resolved ks kpa d gv scl Hres).
  destruct (fst (run (gate ks kpa d))) as [[v0 | d'] | | ] eqn:Hgate;
    try discriminate.
  - apply gate_returns_inv in Hgate. destruct Hgate as [_ ->].
    cbn. intros H. injection H as <- _. lia.
  - cbv zeta.
    destruct (Z.ltb_spec (scaleFromZero (Replicas scl) d') 0) as [Hneg | Hpos].
    + cbn. intros H. injection H as <- _. lia.
    + assert (Hin := applyBounds_within (ScaleBounds kpa) _ Hwf Hpos).
      destruct (applyBounds (lo kpa) (hi kpa)
                  (scaleFromZero (Replicas scl) d') =? Replicas scl);
        cbn; intros H; injection H as <- _; intros _; apply Hin.
Qed.

(** X11. Once a run has written a replica count, the same call repeated
    against a store that holds that count, with the same configuration,
    issues no Update. *)
Theorem Scale_converges ks kpa d w ks2 scl2 gv :
  In w (written (snd (run (scale ks kpa d)))) ->
  autoscalerConfig ks2 = autoscalerConfig ks ->
  resolved ks2 kpa gv scl2 ->
  Replicas scl2 = w ->
  snd (run (scale ks2 kpa d)) = [get kpa gv].
Proof.
  intros Hin Hcfg Hres2 Hcur.
  destruct (Scale_written_inv ks kpa d w Hin)
    as (gv1 & scl & d' & Hres & Hgate & Hpos & Hw & Hne & _).
  rewrite (Scale_resolved ks2 kpa d gv scl2 Hres2).
  rewrite (gate_config_only ks2 ks kpa d Hcfg), Hgate. cbv zeta.
  unfold scaleFromZero in *.
  destruct (Z.eqb_spec d' (-1)) as [Hd' | Hd'].
  - subst d'. rewrite Bool.andb_true_r in *.
    destruct (Z.eqb_spec (Replicas scl) 0) as [Hz | Hz]; [ | lia ].
    assert (Hw0 : w <> 0) by (rewrite Hw; apply applyBounds_one_nonzero).
    destruct (Z.eqb_spec (Replicas scl2) 0); [ congruence | reflexivity ].
  - rewrite Bool.andb_false_r in *.
    destruct (Z.ltb_spec d' 0); [ lia | ].
    rewrite <- Hw, Hcur, Z.eqb_refl. reflexivity.
Qed.

(** X13. An error returned by [Scale] is one that the reference parser, the
    Get or the Update produced. *)
Theorem Scale_error_origin ks kpa d v err :
  fst (run (scale ks kpa d)) = Done (v, Some err) ->
  ParseGroupVersion (refAPIVersion (ScaleTargetRef kpa)) = inl err
  \/ (exists gv,
        ParseGroupVersion (refAPIVersion (ScaleTargetRef kpa)) = inr gv
        /\ Get (scaleClientSet ks) (Namespace kpa)
               (resourceOf KindToResource kpa gv)
               (refName (ScaleTargetRef kpa)) = inl err)
  \/ (exists ns r s,
        In (CallUpdate ns r s) (snd (run (scale ks kpa d)))
        /\ Update (scaleClientSet ks) ns r s = Some err).
Proof.
  destruct (Scale_cases ks kpa d)
    as [[_ Hrun] | [(e & _ & Hparse & Hrun)
       | [(gv & e & _ & Hparse & Hget & Hrun) | (gv & scl & Hres)]]].
  - rewrite Hrun. cbn. discriminate.
  - rewrite Hrun. cbn. intros H. injection H as _ <-. left. exact Hparse.
  - rewrite Hrun. cbn. intros H. injection H as _ <-. right. left.
    exists gv. split; assumption.
  - rewrite (Scale_resolved ks kpa d gv scl Hres).
    destruct (fst (run (gate ks kpa d))) as [[v0 | d'] | | ];
      try (cbn; discriminate).
    cbv zeta.
    destruct (scaleFromZero (Replicas scl) d' <? 0); [ cbn; discriminate | ].
    destruct (applyBounds (lo kpa) (hi kpa)
                (scaleFromZero (Replicas scl) d') =? Replicas scl);
      [ cbn; discriminate | ].
    cbn [fst snd]. intros H. injection H as _ Hupd. right. right.
    eexists _, _, _. split; [ right; left; reflexivity | exact Hupd ].
Qed.



End ScalerProperties.


(** ** The configuration over a history of deliveries *)

Section WatcherProperties.

Variable ConfigMap : Type.
Variable NewConfigFromConfigMap : ConfigMap -> option Config * option error.
Variable deepCopyNil : NilReceiver.

Local Abbreviation receive :=
  (receiveAutoscalerConfig ConfigMap NewConfigFromConfigMap).
Local Abbreviation last := (lastParsed ConfigMap NewConfigFromConfigMap).
Local Abbreviation sound := (parserSound ConfigMap NewConfigFromConfigMap).

(** X14. The snapshot taken after an update is the configuration that
    update parsed to; after an update that failed to parse it is still the
    configuration held before. No call is made and nothing panics. *)
Theorem getAutoscalerConfig_after_receive ks m :
  (forall c, NewConfigFromConfigMap m = (Some c, None) ->
     exists ks',
       receiveAutoscalerConfig ConfigMap NewConfigFromConfigMap ks m = Done ks'
       /\ forall log,
            getAutoscalerConfig deepCopyNil ks' log = (Done (Some c), log))
  /\ (forall new err old,
        NewConfigFromConfigMap m = (new, Some err) ->
        autoscalerConfig ks = Some old ->
        exists ks',
          receiveAutoscalerConfig ConfigMap NewConfigFromConfigMap ks m
            = Done ks'
          /\ forall log,
               getAutoscalerConfig deepCopyNil ks' log
                 = (Done (Some old), log)).
Proof.
  unfold receiveAutoscalerConfig, getAutoscalerConfig, DeepCopy. split.
  - intros c Hparse. rewrite Hparse. eexists. split; [ reflexivity | ].
    intros log. destruct c. reflexivity.
  - intros new err old Hparse Hold. rewrite Hparse, Hold.
    exists ks. split; [ reflexivity | ].
    intros log. rewrite Hold. destruct old. reflexivity.
Qed.

(** X15. After any number of deliveries that the process survives, the
    scaler holds the configuration of the last map that parsed, or the one
    it started with if none did, and still the same scale client. *)
Theorem deliver_last_parsed maps ks ks' :
  deliver ConfigMap
    (receiveAutoscalerConfig ConfigMap NewConfigFromConfigMap) ks maps
    = Done ks' ->
  autoscalerConfig ks' = last (autoscalerConfig ks) maps
  /\ scaleClientSet ks' = scaleClientSet ks.
Proof.
  revert ks. induction maps as [ | m rest IH]; intros ks.
  - cbn. intros H. injection H as <-. split; reflexivity.
  - cbn [deliver]. unfold lastParsed in *. cbn [fold_left].
    unfold receiveAutoscalerConfig at 1.
    destruct (NewConfigFromConfigMap m) as [new [err | ]].
    + destruct (autoscalerConfig ks) as [old | ] eqn:Hold;
        [ | discriminate ].
      intros H. apply IH in H. rewrite Hold in H. exact H.
    + intros H. apply IH in H. exact H.
Qed.

(** X16. Once a configuration is installed, and as long as the parser hands
    out a configuration whenever it reports no error, no delivery ends the
    process and the scaler never falls back to having no configuration. *)
Theorem deliver_configured_survives maps ks :
  sound ->
  autoscalerConfig ks <> None ->
  exists ks',
    deliver ConfigMap
      (receiveAutoscalerConfig ConfigMap NewConfigFromConfigMap) ks maps
      = Done ks'
    /\ autoscalerConfig ks' <> None.
Proof.
  intros Hsound. revert ks. induction maps as [ | m rest IH]; intros ks Hcfg.
  - exists ks. split; [ reflexivity | exact Hcfg ].
  - cbn [deliver]. unfold receiveAutoscalerConfig at 1.
    destruct (NewConfigFromConfigMap m) as [new [err | ]] eqn:Hparse.
    + destruct (autoscalerConfig ks) as [old | ] eqn:Hold;
        [ | contradiction ].
      apply IH. rewrite Hold. discriminate.
    + apply IH. cbn. exact (Hsound m new Hparse).
Qed.

End WatcherProperties.

(** ** Custom data annotations *)

Section CustomDataProperties.

Variable CustomData : Type.
Variable Marshal : CustomData -> string * option error.
Variable CustomDataAnnotationKey : string.

Local Abbreviation add :=
  (AddCustomDataFromRevisionSpecToServiceAnnotations CustomData Marshal
     CustomDataAnnotationKey).

(** The service a call leaves behind when the custom data marshals. *)
Lemma AddCustomData_result svc rev js :
  Marshal (SpecCustomData CustomData rev) = (js, None) ->
  add (Some svc) (Some rev)
  = Done (setAnnotations svc
            (Some (fun k => if String.eqb k CustomDataAnnotationKey
                            then Some js
                            else mapLookup (Annotations svc) k)),
          None).
Proof.
  intros Hm. unfold AddCustomDataFromRevisionSpecToServiceAnnotations.
  rewrite Hm.
  destruct (Annotations svc) as [f | ] eqn:Hann; [ rewrite Hann | ];
    reflexivity.
Qed.

(** X18. When the custom data marshals, the call returns no error and the
    service reads the marshalled text under the custom data key; every other
    annotation reads as before, a nil annotation map counting as empty, and
    the rest of the service is untouched. *)
Theorem AddCustomData_stores svc rev js :
  Marshal (SpecCustomData CustomData rev) = (js, None) ->
  exists svc',
    AddCustomDataFromRevisionSpecToServiceAnnotations CustomData Marshal
      CustomDataAnnotationKey (Some svc) (Some rev) = Done (svc', None)
    /\ mapLookup (Annotations svc') CustomDataAnnotationKey = Some js
    /\ (forall k, k <> CustomDataAnnotationKey ->
          mapLookup (Annotations svc') k = mapLookup (Annotations svc) k)
    /\ svcName svc' = svcName svc.
Proof.
  intros Hm. eexists. split; [ exact (AddCustomData_result svc rev js Hm) | ].
  cbn [setAnnotations Annotations svcName mapLookup].
  rewrite String.eqb_refl. repeat split.
  intros k Hk. destruct (String.eqb_spec k CustomDataAnnotationKey);
    [ contradiction | reflexivity ].
Qed.

(** X19. When the custom data fails to marshal, the call returns the
    marshaller's error and every annotation reads as before; the one change
    it leaves behind is that a nil annotation map has become an empty one. *)
Theorem AddCustomData_marshal_error svc rev js err :
  Marshal (SpecCustomData CustomData rev) = (js, Some err) ->
  exists svc',
    AddCustomDataFromRevisionSpecToServiceAnnotations CustomData Marshal
      CustomDataAnnotationKey (Some svc) (Some rev) = Done (svc', Some err)
    /\ (forall k,
          mapLookup (Annotations svc') k = mapLookup (Annotations svc) k)
    /\ Annotations svc' <> None
    /\ (Annotations svc <> None -> svc' = svc)
    /\ svcName svc' = svcName svc.
Proof.
  intros Hm. unfold AddCustomDataFromRevisionSpecToServiceAnnotations.
  rewrite Hm.
  destruct (Annotations svc) as [f | ] eqn:Hann.
  - exists svc. rewrite Hann. repeat split; discriminate.
  - eexists. split; [ reflexivity | ]. cbn. repeat split;
      [ discriminate | intros H; contradiction ].
Qed.

(** X20. The call panics exactly when the service or the revision is nil;
    a nil annotation map is no cause of panic, and the process is never
    ended. *)
Theorem AddCustomData_panics_iff svc rev :
  (AddCustomDataFromRevisionSpecToServiceAnnotations CustomData Marshal
     CustomDataAnnotationKey svc rev = Panic
   <-> svc = None \/ rev = None)
  /\ AddCustomDataFromRevisionSpecToServiceAnnotations CustomData Marshal
       CustomDataAnnotationKey svc rev <> Exit.
Proof.
  unfold AddCustomDataFromRevisionSpecToServiceAnnotations.
  destruct svc as [s | ]; [ | split; [ split; auto | discriminate ] ].
  destruct rev as [r | ]; [ | split; [ split; auto | discriminate ] ].
  destruct (Marshal (SpecCustomData CustomData r)) as [js [err | ]].
  - split; [ split; [ discriminate | intros [H | H]; discriminate H ]
           | discriminate ].
  - destruct (Annotations s) as [f | ] eqn:Hann; [ rewrite Hann | ]; cbn;
      (split; [ split; [ discriminate | intros [H | H]; discriminate H ]
              | discriminate ]).
Qed.

(** X21. Of two calls on the same service the later one decides the custom
    data annotation, the other annotations reading as before both; a call
    repeated for the same marshalled text changes no annotation. *)
Theorem AddCustomData_last_wins svc rev1 rev2 js1 js2 :
  Marshal (SpecCustomData CustomData rev1) = (js1, None) ->
  Marshal (SpecCustomData CustomData rev2) = (js2, None) ->
  exists svc1 svc2,
    AddCustomDataFromRevisionSpecToServiceAnnotations CustomData Marshal
      CustomDataAnnotationKey (Some svc) (Some rev1) = Done (svc1, None)
    /\ AddCustomDataFromRevisionSpecToServiceAnnotations CustomData Marshal
         CustomDataAnnotationKey (Some svc1) (Some rev2) = Done (svc2, None)
    /\ mapLookup (Annotations svc2) CustomDataAnnotationKey = Some js2
    /\ (forall k, k <> CustomDataAnnotationKey ->
          mapLookup (Annotations svc2) k = mapLookup (Annotations svc) k)
    /\ (js1 = js2 ->
        forall k,
          mapLookup (Annotations svc2) k = mapLookup (Annotations svc1) k).
Proof.
  intros Hm1 Hm2. eexists. eexists.
  split; [ exact (AddCustomData_result svc rev1 js1 Hm1) | ].
  split; [ exact (AddCustomData_result _ rev2 js2 Hm2) | ].
  cbn [setAnnotations Annotations svcName mapLookup].
  rewrite String.eqb_refl. repeat split.
  - intros k Hk. destruct (String.eqb_spec k CustomDataAnnotationKey);
      [ contradiction | reflexivity ].
  - intros Heq k. destruct (String.eqb_spec k CustomDataAnnotationKey);
      [ congruence | reflexivity ].
Qed.

End CustomDataProperties.

(** ** The theorems at sample targets *)

(** An activating target with 3 replicas: the answer is -1, Get only. *)
Lemma Scale_activating_witness :
  run (Sample.scale NilTolerated (Sample.scaler (Sample.client 3))
         (Sample.target (Sample.status true false 10) (0, 0)) 0)
  = (Done (ScaleUnknown, None), [Sample.get]).
Proof.
  refine (proj1 (Scale_activating Sample.groupVersion Sample.parse
                   Sample.toResource NilTolerated
                   (Sample.scaler (Sample.client 3))
                   (Sample.target (Sample.status true false 10) (0, 0))
                   Sample.gv (Sample.deployment 3) Sample.config
                   _ eq_refl eq_refl) _).
  - repeat split.
  - cbn. discriminate.
Defined.

(** C1, as stated, fails at an activating target that has no replica: the
    answer is 1, not -1, and an Update writes 1. *)
Lemma Scale_activating_counterexample :
  State (Status (Sample.target (Sample.status true false 10) (0, 0)))
    = Activating
  /\ run (Sample.scale NilTolerated (Sample.scaler (Sample.client 0))
            (Sample.target (Sample.status true false 10) (0, 0)) 0)
     = (Done (1, None), [Sample.get; Sample.update 1])
  /\ fst (run (Sample.scale NilTolerated (Sample.scaler (Sample.client 0))
                 (Sample.target (Sample.status true false 10) (0, 0)) 0))
     <> Done (ScaleUnknown, None).
Proof.
  repeat split. vm_compute. discriminate.
Qed.

(** An active target, idle for 360 s against a period of 300 s, with 3
    replicas: the answer is 0, Get only. *)
Lemma Scale_zero_deferred_witness :
  run (Sample.scale NilTolerated (Sample.scaler (Sample.client 3))
         (Sample.target (Sample.status false true 360) (0, 0)) 0)
  = (Done (0, None), [Sample.get]).
Proof.
  refine (Scale_zero_deferred Sample.groupVersion Sample.parse
            Sample.toResource NilTolerated
            (Sample.scaler (Sample.client 3))
            (Sample.target (Sample.status false true 360) (0, 0))
            Sample.gv (Sample.deployment 3) Sample.config _ eq_refl _).
  - repeat split.
  - left. split; reflexivity.
Defined.

(** C2, as stated, fails at that target: the current replica count is 3 and
    the value returned is 0. The same holds for an inactive target within
    its grace period. *)
Lemma Scale_zero_deferred_counterexample :
  State (Status (Sample.target (Sample.status false true 360) (0, 0))) = Active
  /\ CanMarkInactive (Sample.status false true 360)
       (ScaleToZeroIdlePeriod Sample.config) = true
  /\ fst (run (Sample.scale NilTolerated (Sample.scaler (Sample.client 3))
                 (Sample.target (Sample.status false true 360) (0, 0)) 0))
     = Done (0, None)
  /\ fst (run (Sample.scale NilTolerated (Sample.scaler (Sample.client 3))
                 (Sample.target (Sample.status false false 10) (0, 0)) 0))
     = Done (0, None)
  /\ fst (run (Sample.scale NilTolerated (Sample.scaler (Sample.client 3))
                 (Sample.target (Sample.status false true 360) (0, 0)) 0))
     <> Done (Replicas (Sample.deployment 3), None).
Proof.
  repeat split. vm_compute. discriminate.
Qed.

(** An active target, idle for 60 s against a period of 300 s, bounds 2 to
    5 and 3 replicas: 2 is written and returned. *)
Lemma Scale_active_idle_pending_witness :
  run (Sample.scale NilTolerated (Sample.scaler (Sample.client 3))
         (Sample.target (Sample.status false true 60) (2, 5)) 0)
  = (Done (2, None), [Sample.get; Sample.update 2]).
Proof.
  refine (proj1 (proj2
            (Scale_active_idle_pending Sample.groupVersion Sample.parse
               Sample.toResource NilTolerated
               (Sample.scaler (Sample.client 3))
               (Sample.target (Sample.status false true 60) (2, 5))
               Sample.gv (Sample.deployment 3) Sample.config
               _ eq_refl eq_refl eq_refl)) _).
  - repeat split.
  - cbn. discriminate.
Defined.

(** C3, as stated, fails at that target: the value returned is 2, not 1. *)
Lemma Scale_active_idle_pending_counterexample :
  State (Status (Sample.target (Sample.status false true 60) (2, 5))) = Active
  /\ CanMarkInactive (Sample.status false true 60)
       (ScaleToZeroIdlePeriod Sample.config) = false
  /\ wfBounds (2, 5)
  /\ run (Sample.scale NilTolerated (Sample.scaler (Sample.client 3))
            (Sample.target (Sample.status false true 60) (2, 5)) 0)
     = (Done (2, None), [Sample.get; Sample.update 2])
  /\ fst (run (Sample.scale NilTolerated (Sample.scaler (Sample.client 3))
                 (Sample.target (Sample.status false true 60) (2, 5)) 0))
     <> Done (1, None).
Proof.
  unfold wfBounds. cbn [fst snd]. repeat split; try lia.
  vm_compute. discriminate.
Qed.

(** No metrics, no replica, a lower bound of 3: 3 is written and returned. *)
Lemma Scale_from_zero_witness :
  run (Sample.scale NilTolerated (Sample.scaler (Sample.client 0))
         (Sample.target (Sample.status false true 60) (3, 0)) (-1))
  = (Done (3, None), [Sample.get; Sample.update 3]).
Proof.
  refine (proj1
            (Scale_from_zero Sample.groupVersion Sample.parse
               Sample.toResource NilTolerated
               (Sample.scaler (Sample.client 0))
               (Sample.target (Sample.status false true 60) (3, 0)) (-1)
               Sample.gv (Sample.deployment 0) _ eq_refl eq_refl)).
  repeat split.
Defined.

(** C4, as stated, fails at that target: the value returned is 3, not 1. *)
Lemma Scale_from_zero_counterexample :
  Replicas (Sample.deployment 0) = 0
  /\ fst (run (scaleToZeroGate NilTolerated (Sample.scaler (Sample.client 0))
                 (Sample.target (Sample.status false true 60) (3, 0)) (-1)))
     = Done (inr ScaleUnknown)
  /\ wfBounds (3, 0)
  /\ run (Sample.scale NilTolerated (Sample.scaler (Sample.client 0))
            (Sample.target (Sample.status false true 60) (3, 0)) (-1))
     = (Done (3, None), [Sample.get; Sample.update 3])
  /\ fst (run (Sample.scale NilTolerated (Sample.scaler (Sample.client 0))
                 (Sample.target (Sample.status false true 60) (3, 0)) (-1)))
     <> Done (1, None).
Proof.
  unfold wfBounds. cbn [fst snd]. repeat split; try lia; auto.
  vm_compute. discriminate.
Qed.

(** A failed Get hands back the desired scale 5 with the error; a failed
    Update of an inactive target past its grace period hands back the 0 it
    tried to write. *)
Lemma Scale_propagates_errors_witness :
  run (Sample.scale NilTolerated (Sample.scaler Sample.clientNoGet)
         (Sample.target (Sample.status false true 60) (0, 0)) 5)
  = (Done (5, Some "not found"%string), [Sample.get])
  /\ fst (run (Sample.scale NilTolerated
                 (Sample.scaler (Sample.clientNoUpdate 3))
                 (Sample.target (Sample.status false false 60) (0, 0)) 0))
     = Done (0, Some "conflict"%string).
Proof.
  split.
  - refine (proj1 (Scale_propagates_errors Sample.groupVersion Sample.parse
                     Sample.toResource NilTolerated
                     (Sample.scaler Sample.clientNoGet)
                     (Sample.target (Sample.status false true 60) (0, 0)) 5)
                  Sample.gv "not found"%string eq_refl eq_refl eq_refl).
  - refine (proj2 (Scale_propagates_errors Sample.groupVersion Sample.parse
                     Sample.toResource NilTolerated
                     (Sample.scaler (Sample.clientNoUpdate 3))
                     (Sample.target (Sample.status false false 60) (0, 0)) 0)
                  "default"%string
                  {| Group := "apps"; Resource := "Deployment" |}
                  (Sample.deployment 0) "conflict"%string _ eq_refl).
    vm_compute. right. left. reflexivity.
Defined.

(** A failed update keeps the installed configuration; a parsed one
    replaces it. *)
Lemma receiveAutoscalerConfig_replace_witness :
  receiveAutoscalerConfig _ Sample.fromMap (Sample.scaler (Sample.client 3))
    (None, Some "bad duration"%string)
  = Done (Sample.scaler (Sample.client 3))
  /\ exists ks',
      receiveAutoscalerConfig _ Sample.fromMap
        (Sample.scaler (Sample.client 3)) (Some Sample.config', None)
      = Done ks'
      /\ autoscalerConfig ks' = Some Sample.config'
      /\ scaleClientSet ks' = Sample.client 3.
Proof.
  split.
  - exact (proj1 (receiveAutoscalerConfig_replace _ Sample.fromMap
                    (Sample.scaler (Sample.client 3))
                    (None, Some "bad duration"%string))
                 Sample.config None "bad duration"%string eq_refl eq_refl).
  - exact (proj2 (receiveAutoscalerConfig_replace _ Sample.fromMap
                    (Sample.scaler (Sample.client 3))
                    (Some Sample.config', None))
                 (Some Sample.config') eq_refl).
Defined.


(** Were the snapshot copy to tolerate a nil configuration, the same
    activating target would get the sentinel back: the configuration is
    fetched but never read on that branch. *)
Lemma Scale_unconfigured_activating_tolerated :
  run (Sample.scale NilTolerated (Sample.scaler0 (Sample.client 3))
         (Sample.target (Sample.status true false 60) (0, 0)) 0)
  = (Done (ScaleUnknown, None), [Sample.get]).
Proof.
  reflexivity.
Qed.

(** A desired scale of 20 under bounds 1 to 10 on a target that has 10
    replicas: the clamp meets the current count, Get only. *)
Lemma Scale_noop_witness :
  run (Sample.scale NilTolerated (Sample.scaler (Sample.client 10))
         (Sample.target (Sample.status false true 60) (1, 10)) 20)
  = (Done (10, None), [Sample.get]).
Proof.
  refine (Scale_noop Sample.groupVersion Sample.parse Sample.toResource
            NilTolerated (Sample.scaler (Sample.client 10))
            (Sample.target (Sample.status false true 60) (1, 10)) 20
            Sample.gv (Sample.deployment 10) 20 _ eq_refl _ eq_refl).
  - repeat split.
  - vm_compute. discriminate.
Defined.

(** A desired scale of 20 under bounds 1 to 10 on a target that has 3
    replicas: the one value written, 10, is within the bounds. *)
Lemma Scale_writes_within_bounds_witness :
  written (snd (run (Sample.scale NilTolerated
                       (Sample.scaler (Sample.client 3))
                       (Sample.target (Sample.status false true 60) (1, 10))
                       20))) = [10]
  /\ Forall (fun w => withinBounds (1, 10) w /\ 0 <= w)
       (written (snd (run (Sample.scale NilTolerated
                             (Sample.scaler (Sample.client 3))
                             (Sample.target (Sample.status false true 60)
                                            (1, 10))
                             20)))).
Proof.
  split; [ reflexivity | ].
  refine (Scale_writes_within_bounds Sample.groupVersion Sample.parse
            Sample.toResource NilTolerated (Sample.scaler (Sample.client 3))
            (Sample.target (Sample.status false true 60) (1, 10)) 20 _).
  unfold wfBounds. cbn. lia.
Defined.

(** ** The further properties at sample inputs *)

Lemma applyBounds_closed_form_witness :
  applyBounds 1 10 20 = Z.max 1 (if 10 =? 0 then 20 else Z.min 10 20).
Proof.
  apply (applyBounds_closed_form 1 10 20). right. lia.
Defined.

Lemma applyBounds_monotone_witness :
  applyBounds 1 10 5 <= applyBounds 1 10 20.
Proof.
  apply (applyBounds_monotone 1 10 5 20); [ right | ]; lia.
Defined.

Lemma applyBounds_fixed_iff_witness : applyBounds 1 10 5 = 5.
Proof.
  apply (proj2 (applyBounds_fixed_iff 1 10 5)).
  unfold withinBounds. cbn. lia.
Defined.

(** A target without owner: the desired scale comes back and no call is
    made. *)
Lemma Scale_no_call_iff_witness :
  run (Sample.scale NilTolerated (Sample.scaler (Sample.client 3))
         Sample.orphan 7) = (Done (7, None), []).
Proof.
  apply (proj1 (Scale_no_call_iff Sample.groupVersion Sample.parse
                  Sample.toResource NilTolerated
                  (Sample.scaler (Sample.client 3)) Sample.orphan 7)).
  left. reflexivity.
Defined.

(** A desired scale of 5 on a target that has 3 replicas: the one Update
    follows the Get and carries the fetched deployment with 5 replicas. *)
Lemma Scale_call_protocol_witness :
  exists gv scl,
    resolves Sample.groupVersion Sample.parse Sample.toResource
      (Sample.scaler (Sample.client 3))
      (Sample.target (Sample.status false true 60) (0, 0)) gv scl
    /\ snd (run (Sample.scale NilTolerated (Sample.scaler (Sample.client 3))
                   (Sample.target (Sample.status false true 60) (0, 0)) 5))
       = [getCall Sample.toResource
            (Sample.target (Sample.status false true 60) (0, 0)) gv;
          Sample.update 5]
    /\ "default"%string
       = Namespace (Sample.target (Sample.status false true 60) (0, 0))
    /\ {| Group := "apps"; Resource := "Deployment" |}
       = resourceOf Sample.toResource
           (Sample.target (Sample.status false true 60) (0, 0)) gv
    /\ Sample.deployment 5
       = setReplicas scl (Replicas (Sample.deployment 5))
    /\ Replicas (Sample.deployment 5) <> Replicas scl.
Proof.
  apply (proj2 (Scale_call_protocol Sample.groupVersion Sample.parse
                  Sample.toResource NilTolerated
                  (Sample.scaler (Sample.client 3))
                  (Sample.target (Sample.status false true 60) (0, 0)) 5)
               "default"%string
               {| Group := "apps"; Resource := "Deployment" |}
               (Sample.deployment 5)).
  vm_compute. right. left. reflexivity.
Defined.

(** An inactive target, 60 s past a grace period of 30 s, with 3 replicas
    and no lower bound: 0 is written, and the conditions for that hold. *)
Lemma Scale_writes_zero_only_inactive_witness :
  State (Status (Sample.target (Sample.status false false 60) (0, 0)))
    = Inactive
  /\ exists cfg,
       autoscalerConfig (Sample.scaler (Sample.client 3)) = Some cfg
       /\ CanScaleToZero (Sample.status false false 60)
            (ScaleToZeroGracePeriod cfg) = true.
Proof.
  destruct (Scale_writes_zero_only_inactive Sample.groupVersion Sample.parse
              Sample.toResource NilTolerated
              (Sample.scaler (Sample.client 3))
              (Sample.target (Sample.status false false 60) (0, 0)) 0)
    as (_ & Hst & Hcfg & _).
  - vm_compute. left. reflexivity.
  - split; [ exact Hst | exact Hcfg ].
Defined.

Lemma Scale_inactive_grace_elapsed_witness :
  run (Sample.scale NilTolerated (Sample.scaler (Sample.client 3))
         (Sample.target (Sample.status false false 60) (0, 0)) 0)
  = (Done (0, None), [Sample.get; Sample.update 0]).
Proof.
  refine (proj1 (proj2
            (Scale_inactive_grace_elapsed Sample.groupVersion Sample.parse
               Sample.toResource NilTolerated
               (Sample.scaler (Sample.client 3))
               (Sample.target (Sample.status false false 60) (0, 0))
               Sample.gv (Sample.deployment 3) Sample.config
               _ eq_refl eq_refl eq_refl)) _).
  - repeat split.
  - cbn. discriminate.
Defined.

(** No metrics yet on a target that has 3 replicas: -1 comes back. *)
Lemma Scale_unknown_passthrough_witness :
  run (Sample.scale NilTolerated (Sample.scaler (Sample.client 3))
         (Sample.target (Sample.status false true 60) (0, 0)) (-1))
  = (Done (-1, None), [Sample.get]).
Proof.
  refine (Scale_unknown_passthrough Sample.groupVersion Sample.parse
            Sample.toResource NilTolerated
            (Sample.scaler (Sample.client 3))
            (Sample.target (Sample.status false true 60) (0, 0)) (-1)
            Sample.gv (Sample.deployment 3) _ _ _).
  - repeat split.
  - lia.
  - left. cbn. discriminate.
Defined.

(** A desired scale of 5 on a scaler that never received a configuration:
    5 is written. *)
Lemma Scale_positive_witness :
  run (Sample.scale NilDereferenced (Sample.scaler0 (Sample.client 3))
         (Sample.target (Sample.status true false 60) (0, 0)) 5)
  = (Done (5, None), [Sample.get; Sample.update 5]).
Proof.
  refine (proj2
            (Scale_positive Sample.groupVersion Sample.parse
               Sample.toResource NilDereferenced
               (Sample.scaler0 (Sample.client 3))
               (Sample.target (Sample.status true false 60) (0, 0)) 5
               Sample.gv (Sample.deployment 3) _ _) _).
  - repeat split.
  - lia.
  - cbn. discriminate.
Defined.

Lemma Scale_positive_result_within_bounds_witness :
  withinBounds (1, 10) 10.
Proof.
  refine (Scale_positive_result_within_bounds Sample.groupVersion
            Sample.parse Sample.toResource NilTolerated
            (Sample.scaler (Sample.client 3))
            (Sample.target (Sample.status false true 60) (1, 10)) 20
            Sample.gv (Sample.deployment 3) 10 None _ _ eq_refl _).
  - repeat split.
  - unfold wfBounds. cbn. lia.
  - lia.
Defined.

(** After 5 was written over 3, the same call against 5 replicas only
    reads. *)
Lemma Scale_converges_witness :
  snd (run (Sample.scale NilTolerated (Sample.scaler (Sample.client 5))
              (Sample.target (Sample.status false true 60) (0, 0)) 5))
  = [Sample.get].
Proof.
  refine (Scale_converges Sample.groupVersion Sample.parse
            Sample.toResource NilTolerated
            (Sample.scaler (Sample.client 3))
            (Sample.target (Sample.status false true 60) (0, 0)) 5 5
            (Sample.scaler (Sample.client 5)) (Sample.deployment 5)
            Sample.gv _ eq_refl _ eq_refl).
  - vm_compute. left. reflexivity.
  - repeat split.
Defined.

(** The error of a failed Update is traced to that Update. *)
Lemma Scale_error_origin_witness :
  Sample.parse (refAPIVersion Sample.targetRef) = inl "conflict"%string
  \/ (exists gv,
        Sample.parse (refAPIVersion Sample.targetRef) = inr gv
        /\ Get (Sample.clientNoUpdate 3) "default"
             (resourceOf Sample.toResource
                (Sample.target (Sample.status false true 60) (0, 0)) gv)
             "rev-1-deployment" = inl "conflict"%string)
  \/ (exists ns r s,
        In (CallUpdate ns r s)
           (snd (run (Sample.scale NilTolerated
                        (Sample.scaler (Sample.clientNoUpdate 3))
                        (Sample.target (Sample.status false true 60) (0, 0))
                        5)))
        /\ Update (Sample.clientNoUpdate 3) ns r s = Some "conflict"%string).
Proof.
  exact (Scale_error_origin Sample.groupVersion Sample.parse
           Sample.toResource NilTolerated
           (Sample.scaler (Sample.clientNoUpdate 3))
           (Sample.target (Sample.status false true 60) (0, 0)) 5 5
           "conflict"%string eq_refl).
Defined.

(** A parsed update is what the next snapshot shows. *)
Lemma getAutoscalerConfig_after_receive_witness :
  exists ks',
    receiveAutoscalerConfig _ Sample.parseMap
      (Sample.scaler (Sample.client 3)) (Some Sample.config') = Done ks'
    /\ forall log,
         getAutoscalerConfig NilDereferenced ks' log
           = (Done (Some Sample.config'), log).
Proof.
  exact (proj1 (getAutoscalerConfig_after_receive _ Sample.parseMap
                  NilDereferenced (Sample.scaler (Sample.client 3))
                  (Some Sample.config'))
               Sample.config' eq_refl).
Defined.

(** A good map followed by a bad one: the good one stays. *)
Lemma deliver_last_parsed_witness :
  autoscalerConfig (Sample.scaler (Sample.client 3))
    = lastParsed _ Sample.parseMap (Some Sample.config')
        [Some Sample.config; None]
  /\ scaleClientSet (Sample.scaler (Sample.client 3)) = Sample.client 3.
Proof.
  exact (deliver_last_parsed _ Sample.parseMap [Some Sample.config; None]
           {| scaleClientSet := Sample.client 3;
              autoscalerConfig := Some Sample.config' |}
           (Sample.scaler (Sample.client 3)) eq_refl).
Defined.

Lemma parseMap_sound : parserSound _ Sample.parseMap.
Proof.
  intros [c | ] c' H; cbn in H; [ | discriminate H ].
  injection H as <-. discriminate.
Qed.

Lemma deliver_configured_survives_witness :
  exists ks',
    deliver _ (receiveAutoscalerConfig _ Sample.parseMap)
      (Sample.scaler (Sample.client 3)) [None; Some Sample.config'; None]
      = Done ks'
    /\ autoscalerConfig ks' <> None.
Proof.
  refine (deliver_configured_survives _ Sample.parseMap
            [None; Some Sample.config'; None]
            (Sample.scaler (Sample.client 3)) parseMap_sound _).
  cbn. discriminate.
Defined.

(** A service without annotations receives the custom data. *)
Lemma AddCustomData_stores_witness :
  exists svc',
    Sample.addCustomData (Some (Sample.service None))
      (Some (Sample.revision "blue")) = Done (svc', None)
    /\ mapLookup (Annotations svc') Sample.customDataKey
       = Some "'blue'"%string
    /\ (forall k, k <> Sample.customDataKey ->
          mapLookup (Annotations svc') k
          = mapLookup (Annotations (Sample.service None)) k)
    /\ svcName svc' = svcName (Sample.service None).
Proof.
  exact (AddCustomData_stores string Sample.marshal Sample.customDataKey
           (Sample.service None) (Sample.revision "blue")
           "'blue'"%string eq_refl).
Defined.

(** Custom data that does not marshal leaves a labelled service as it is. *)
Lemma AddCustomData_marshal_error_witness :
  exists svc',
    Sample.addCustomData (Some (Sample.service Sample.labelled))
      (Some (Sample.revision "unsupported"))
    = Done (svc', Some "json: unsupported value"%string)
    /\ (forall k,
          mapLookup (Annotations svc') k
          = mapLookup (Annotations (Sample.service Sample.labelled)) k)
    /\ Annotations svc' <> None
    /\ (Annotations (Sample.service Sample.labelled) <> None ->
        svc' = Sample.service Sample.labelled)
    /\ svcName svc' = svcName (Sample.service Sample.labelled).
Proof.
  exact (AddCustomData_marshal_error string Sample.marshal
           Sample.customDataKey (Sample.service Sample.labelled)
           (Sample.revision "unsupported") EmptyString
           "json: unsupported value"%string eq_refl).
Defined.

Lemma AddCustomData_panics_iff_witness :
  Sample.addCustomData None (Some (Sample.revision "blue")) = Panic.
Proof.
  apply (proj2 (proj1 (AddCustomData_panics_iff string Sample.marshal
                         Sample.customDataKey None
                         (Some (Sample.revision "blue"))))).
  left. reflexivity.
Defined.

(** Blue, then green, on a labelled service: green is read back and the
    label is still there. *)
Lemma AddCustomData_last_wins_witness :
  exists svc1 svc2,
    Sample.addCustomData (Some (Sample.service Sample.labelled))
      (Some (Sample.revision "blue")) = Done (svc1, None)
    /\ Sample.addCustomData (Some svc1) (Some (Sample.revision "green"))
       = Done (svc2, None)
    /\ mapLookup (Annotations svc2) Sample.customDataKey
       = Some "'green'"%string
    /\ mapLookup (Annotations svc2) "app" = Some "shop"%string.
Proof.
  destruct (AddCustomData_last_wins string Sample.marshal
              Sample.customDataKey (Sample.service Sample.labelled)
              (Sample.revision "blue") (Sample.revision "green")
              "'blue'"%string "'green'"%string eq_refl eq_refl)
    as (svc1 & svc2 & H1 & H2 & Hk & Hf & _).
  exists svc1, svc2. repeat split; trivial.
  rewrite Hf; [ reflexivity | discriminate ].
Defined.
